(** * imap-data-access: file name validation

    A shallow embedding of [imap_data_access/file_validation.py]: the three
    file-name conventions (SPICE, Science, Ancillary), their regular
    expressions, the post-match validation, the canonical storage paths and
    the dispatcher [generate_imap_file_path].

    Python strings are modelled as [string]: characters are the code points
    below 256, on which [\d] is exactly the ASCII digits.  Exceptions are an
    explicit [result] type. *)

From Stdlib Require Import String Ascii List ZArith NArith Lia Bool DecimalString.
Import ListNotations.
Open Scope string_scope.

(* ================================================================== *)
(** ** Results and exceptions *)

(** The exception classes the module raises or lets escape. *)
Inductive exn : Type :=
| InvalidSPICEFileError (msg : string)
| InvalidScienceFileError (msg : string)
| InvalidAncillaryFileError (msg : string)
| ValueError (msg : string)
| TypeError
| KeyError.

Inductive result (A : Type) : Type :=
| Ok (a : A)
| Raise (e : exn).
Arguments Ok {A} a.
Arguments Raise {A} e.

Definition bind {A B} (x : result A) (f : A -> result B) : result B :=
  match x with
  | Ok a => f a
  | Raise e => Raise e
  end.

Notation "x <- a ;; b" := (bind a (fun x => b))
  (at level 61, a at next level, right associativity).

(* ================================================================== *)
(** ** Strings *)

Definition newline : ascii := "010"%char.

Fixpoint take (n : nat) (s : string) : string :=
  match n, s with
  | S n', String c s' => String c (take n' s')
  | _, _ => ""
  end.

Fixpoint drop (n : nat) (s : string) : string :=
  match n, s with
  | S n', String _ s' => drop n' s'
  | _, _ => s
  end.

Fixpoint forall_chars (p : ascii -> bool) (s : string) : bool :=
  match s with
  | "" => true
  | String c s' => p c && forall_chars p s'
  end.

Definition code (c : ascii) : N := N_of_ascii c.

(** [str.lower()] on code points below 256: the ASCII capitals and the
    Latin-1 capitals U+00C0..U+00DE (without the multiplication sign U+00D7)
    move up by 32. *)
Definition lower_char (c : ascii) : ascii :=
  let n := code c in
  if ((65 <=? n) && (n <=? 90))%N
     || ((192 <=? n) && (n <=? 222) && negb (n =? 215))%N
  then ascii_of_N (n + 32)
  else c.

Fixpoint lower (s : string) : string :=
  match s with
  | "" => ""
  | String c s' => String (lower_char c) (lower s')
  end.

Definition str_in (x : string) (l : list string) : bool :=
  existsb (String.eqb x) l.

(** [sep.join(l)] *)
Fixpoint join (sep : string) (l : list string) : string :=
  match l with
  | [] => ""
  | [x] => x
  | x :: rest => x ++ sep ++ join sep rest
  end.

(* ================================================================== *)
(** ** Regular expressions

    The fragment of Python's [re] the module uses, matched the way [re]
    matches: leftmost alternative first, greedy repetition, backtracking
    into the continuation. *)

(** Character sets. *)
Inductive cclass : Type :=
| CDigit                       (* \d and [\d] *)
| CAny                         (* .   (no DOTALL: anything but a newline) *)
| CChar (c : ascii)            (* a literal character *)
| CNot (c : ascii)             (* [^c] *)
| CRange (lo hi : ascii)       (* lo-hi inside a set *)
| CUnion (a b : cclass).       (* juxtaposition inside a set *)

Fixpoint in_class (p : cclass) (c : ascii) : bool :=
  match p with
  | CDigit => ((48 <=? code c) && (code c <=? 57))%N
  | CAny => negb (Ascii.eqb c newline)
  | CChar x => Ascii.eqb c x
  | CNot x => negb (Ascii.eqb c x)
  | CRange lo hi => ((code lo <=? code c) && (code c <=? code hi))%N
  | CUnion a b => in_class a c || in_class b c
  end.

Inductive regex : Type :=
| Eps
| Bol                                          (* ^ *)
| Eol                                          (* $ *)
| Cls (p : cclass)                             (* one character of a set *)
| Rep (p : cclass) (lo : nat) (hi : option nat) (* greedy p{lo,hi}; + is {1,}, * is {0,} *)
| Seq (r1 r2 : regex)
| Alt (r1 r2 : regex)                          (* r1|r2 *)
| Opt (r : regex)                              (* (r)? *)
| Grp (name : string) (r : regex).             (* (?P<name>r) *)

(** A literal run of characters. *)
Fixpoint lit (s : string) : regex :=
  match s with
  | "" => Eps
  | String c s' => Seq (Cls (CChar c)) (lit s')
  end.

Declare Scope re_scope.
Delimit Scope re_scope with re.
Bind Scope re_scope with regex.
Infix "+++" := Seq (at level 45, right associativity) : re_scope.
Infix "|||" := Alt (at level 50, left associativity) : re_scope.

Definition exactly (n : nat) (p : cclass) : regex := Rep p n (Some n).  (* p{n} *)
Definition plus (p : cclass) : regex := Rep p 1 None.                   (* p+ *)
Definition star (p : cclass) : regex := Rep p 0 None.                   (* p* *)
Definition any : regex := Cls CAny.                                     (* . *)

(** Named groups of a pattern in the order they open: the key order of
    [groupdict()]. *)
Fixpoint group_names (r : regex) : list string :=
  match r with
  | Seq r1 r2 | Alt r1 r2 => group_names r1 ++ group_names r2
  | Opt r => group_names r
  | Grp n r => n :: group_names r
  | _ => []
  end.

(** Captures recorded so far, most recent first. *)
Definition captures := list (string * string).

Fixpoint lookup {A} (name : string) (l : list (string * A)) : option A :=
  match l with
  | [] => None
  | (n, v) :: rest => if String.eqb name n then Some v else lookup name rest
  end.

(** [$] without MULTILINE: at the end, or just before a final newline. *)
Definition at_end (s : string) : bool :=
  match s with
  | "" => true
  | String c "" => Ascii.eqb c newline
  | _ => false
  end.

Section Matcher.
Context {R : Type}.
(** The whole subject string: [^] has to know where the start is. *)
Variable subj : string.

(** Greedy [p{lo,hi}]: take one more character while allowed, and fall
    back to stopping here when the rest of the pattern fails later on. *)
Fixpoint rep_match (p : cclass) (lo : nat) (hi : option nat) (s : string)
         (k : string -> option R) : option R :=
  let stop := match lo with O => k s | S _ => None end in
  match hi with
  | Some O => stop
  | _ =>
    match s with
    | String c s' =>
      if in_class p c then
        match rep_match p (Nat.pred lo) (option_map Nat.pred hi) s' k with
        | Some x => Some x
        | None => stop
        end
      else stop
    | "" => stop
    end
  end.

Fixpoint rmatch (r : regex) (s : string) (caps : captures)
         (k : string -> captures -> option R) : option R :=
  match r with
  | Eps => k s caps
  | Bol => if Nat.eqb (String.length s) (String.length subj) then k s caps else None
  | Eol => if at_end s then k s caps else None
  | Cls p =>
    match s with
    | String c s' => if in_class p c then k s' caps else None
    | "" => None
    end
  | Rep p lo hi => rep_match p lo hi s (fun s' => k s' caps)
  | Seq r1 r2 => rmatch r1 s caps (fun s' caps' => rmatch r2 s' caps' k)
  | Alt r1 r2 =>
    match rmatch r1 s caps k with
    | Some x => Some x
    | None => rmatch r2 s caps k
    end
  | Opt r1 =>
    match rmatch r1 s caps k with
    | Some x => Some x
    | None => k s caps
    end
  | Grp n r1 =>
    rmatch r1 s caps
      (fun s' caps' =>
         k s' ((n, take (String.length s - String.length s') s) :: caps'))
  end.
End Matcher.

(** A match object: the pattern's group names, what the groups captured and
    the text left after the match. *)
Record Match : Type := mkMatch {
  m_names : list string;
  m_caps : captures;
  m_rest : string
}.

(** [re.match(pattern, s)]: anchored at the start, free at the end. *)
Definition re_match (r : regex) (s : string) : option Match :=
  rmatch s r s [] (fun s' caps => Some (mkMatch (group_names r) caps s')).

(** [m.group(name)]: [None] for a group that took no part in the match. *)
Definition group (m : Match) (name : string) : option string :=
  lookup name (m_caps m).

(** [m.groupdict()] *)
Definition groupdict (m : Match) : list (string * option string) :=
  map (fun n => (n, group m n)) (m_names m).

(** [m.end()] reached the end of a subject of which [m_rest] is left. *)
Definition match_all (m : Match) : bool :=
  match m_rest m with "" => true | _ => false end.

(* ================================================================== *)
(** ** [pathlib] paths (POSIX flavour)

    A path is its root ("", "/" or "//") and its components; parsing drops
    empty components and ".". *)

Record Path : Type := mkPath {
  root : string;
  parts : list string
}.

(** [s.split(sep)] for a one-character separator. *)
Fixpoint split_on (sep : ascii) (s : string) : list string :=
  match s with
  | "" => [""]
  | String c s' =>
    if Ascii.eqb c sep then "" :: split_on sep s'
    else match split_on sep s' with
         | x :: rest => String c x :: rest
         | [] => [String c ""]
         end
  end.

Definition starts_with_slash (s : string) : bool :=
  match s with
  | String c _ => Ascii.eqb c "/"
  | "" => false
  end.

(** [posixpath.splitroot]: one leading slash is the root, exactly two are
    kept as "//", three or more collapse to one. *)
Definition splitroot (p : string) : string * string :=
  if negb (starts_with_slash p) then ("", p)
  else if negb (starts_with_slash (drop 1 p)) || starts_with_slash (drop 2 p)
       then ("/", drop 1 p)
       else ("//", drop 2 p).

Definition Path_of_str (s : string) : Path :=
  let '(rt, rel) := splitroot s in
  mkPath rt
    (filter (fun x => negb (String.eqb x "") && negb (String.eqb x "."))
            (split_on "/" rel)).

(** [path.name] *)
Definition Path_name (p : Path) : string := last (parts p) "".

(** [str(path)] *)
Definition Path_str (p : Path) : string :=
  match root p, parts p with
  | "", [] => "."
  | rt, ps => rt ++ join "/" ps
  end.

(** [a / b]: a rooted right operand replaces the left one. *)
Definition Path_join (a b : Path) : Path :=
  if String.eqb (root b) "" then mkPath (root a) (parts a ++ parts b)
  else b.

Infix "//" := Path_join (at level 40, left associativity).

(* ================================================================== *)
(** ** [int()] and string formatting *)

Definition is_digit (c : ascii) : bool := in_class CDigit c.

Definition digit_value (c : ascii) : Z := Z.of_N (code c) - 48.

(** [str.isspace] on code points below 256. *)
Definition is_space (c : ascii) : bool :=
  let n := code c in
  ((9 <=? n) && (n <=? 13) || (28 <=? n) && (n <=? 32)
   || (n =? 133) || (n =? 160))%N.

Fixpoint lstrip (s : string) : string :=
  match s with
  | String c s' => if is_space c then lstrip s' else s
  | "" => ""
  end.

Fixpoint rstrip (s : string) : string :=
  match s with
  | "" => ""
  | String c s' =>
    match rstrip s' with
    | "" => if is_space c then "" else String c ""
    | t => String c t
    end
  end.

(** Decimal digits with single underscores between them. *)
Fixpoint int_body (after_digit : bool) (acc : Z) (s : string) : option Z :=
  match s with
  | "" => if after_digit then Some acc else None
  | String c s' =>
    if is_digit c then int_body true (10 * acc + digit_value c) s'
    else if Ascii.eqb c "_" && after_digit then int_body false acc s'
    else None
  end.

Definition int_literal_error : exn :=
  ValueError "invalid literal for int() with base 10".

(** [int(x)] for [x] a string or [None]. *)
Definition py_int (x : option string) : result Z :=
  match x with
  | None => Raise TypeError
  | Some s =>
    let t := rstrip (lstrip s) in
    let '(neg, body) :=
      match t with
      | String c t' =>
        if Ascii.eqb c "-" then (true, t')
        else if Ascii.eqb c "+" then (false, t')
        else (false, t)
      | "" => (false, t)
      end in
    match int_body false 0 body with
    | Some v => Ok (if neg then (- v)%Z else v)
    | None => Raise int_literal_error
    end
  end.

(** [str(n)] for a natural number. *)
Definition str_of_N (n : N) : string :=
  DecimalString.NilZero.string_of_uint (N.to_uint n).

Fixpoint zeros (n : nat) : string :=
  match n with
  | O => ""
  | S n' => String "0" (zeros n')
  end.

Definition zfill (width : nat) (s : string) : string :=
  zeros (width - String.length s) ++ s.

(** [f"{z:05d}"]: zero padding to five columns, the sign included. *)
Definition format_05d (z : Z) : string :=
  if (z <? 0)%Z then "-" ++ zfill 4 (str_of_N (Z.abs_N z))
  else zfill 5 (str_of_N (Z.to_N z)).

(** [repr] of a list of plain strings. *)
Definition repr_list (l : list string) : string :=
  "[" ++ join ", " (map (fun s => "'" ++ s ++ "'") l) ++ "]".

(** A string attribute that may be [None], inside an f-string. *)
Definition fmt (x : option string) : string :=
  match x with
  | Some s => s
  | None => "None"
  end.

(* ================================================================== *)
(** ** Dates: [datetime.strptime(s, "%Y%m%d")] *)

(** The regular expression [_strptime] builds for ["%Y%m%d"] (it is
    compiled with IGNORECASE, which changes nothing for digits). *)
Definition strptime_Ymd_pattern : regex :=
  (Grp "Y" (Cls CDigit +++ Cls CDigit +++ Cls CDigit +++ Cls CDigit) +++
   Grp "m" (lit "1" +++ Cls (CRange "0" "2")
            ||| lit "0" +++ Cls (CRange "1" "9")
            ||| Cls (CRange "1" "9")) +++
   Grp "d" (lit "3" +++ Cls (CRange "0" "1")
            ||| Cls (CRange "1" "2") +++ Cls CDigit
            ||| lit "0" +++ Cls (CRange "1" "9")
            ||| Cls (CRange "1" "9")
            ||| lit " " +++ Cls (CRange "1" "9")))%re.

Definition is_leap (y : Z) : bool :=
  ((y mod 4 =? 0) && (negb (y mod 100 =? 0) || (y mod 400 =? 0)))%Z.

Definition days_in_month (y m : Z) : Z :=
  if (m =? 2)%Z then (if is_leap y then 29 else 28)%Z
  else if ((m =? 4) || (m =? 6) || (m =? 9) || (m =? 11))%Z then 30%Z
  else 31%Z.

(** What the [date] constructor accepts. *)
Definition date_ok (y m d : Z) : bool :=
  ((1 <=? y) && (y <=? 9999) && (1 <=? m) && (m <=? 12)
   && (1 <=? d) && (d <=? days_in_month y m))%Z.

Definition strptime_Ymd (s : string) : result (Z * Z * Z) :=
  match re_match strptime_Ymd_pattern s with
  | None => Raise (ValueError "time data does not match format")
  | Some m =>
    if negb (match_all m) then Raise (ValueError "unconverted data remains")
    else
      y <- py_int (group m "Y") ;;
      mo <- py_int (group m "m") ;;
      d <- py_int (group m "d") ;;
      if date_ok y mo d then Ok (y, mo, d)
      else Raise (ValueError "day is out of range for month")
  end.

(** [ImapFilePath.is_valid_date]: only [ValueError] is caught. *)
Definition is_valid_date (input_date : option string) : result bool :=
  match input_date with
  | None => Raise TypeError
  | Some s =>
    match strptime_Ymd s with
    | Ok _ => Ok true
    | Raise (ValueError _) => Ok false
    | Raise e => Raise e
    end
  end.

(* ================================================================== *)
(** ** Package configuration

    The constants of the package's [__init__] module that the validation
    code reads.  They are parameters of the development: the data
    directory, the vocabularies, and the texts the error messages quote
    (the two naming conventions and the printed form of each vocabulary). *)

Record Config : Type := mkConfig {
  DATA_DIR : option Path;
  VALID_INSTRUMENTS : list string;
  VALID_DATALEVELS : list string;
  VALID_FILE_EXTENSION : list string;
  VALID_ANCILLARY_FILE_EXTENSION : list string;
  FILENAME_CONVENTION : string;
  ANCILLARY_FILENAME_CONVENTION : string;
  VALID_INSTRUMENTS_text : string;
  VALID_DATALEVELS_text : string
}.

(** Python values stored in a metadata dictionary. *)
Inductive pyval : Type :=
| PNone
| PStr (s : string)
| PInt (z : Z).

Definition of_group (x : option string) : pyval :=
  match x with
  | Some s => PStr s
  | None => PNone
  end.

Definition truthy (v : pyval) : bool :=
  match v with
  | PNone => false
  | PStr s => negb (String.eqb s "")
  | PInt z => negb (z =? 0)%Z
  end.

Definition isinstance_int (v : pyval) : bool :=
  match v with
  | PInt _ => true
  | _ => false
  end.

(* ================================================================== *)
(** ** SPICE files *)

Definition lower_letters : cclass := CRange "a" "z".
Definition upper_letters : cclass := CRange "A" "Z".
Definition digit_range : cclass := CRange "0" "9".

(** [[a-zA-Z0-9\-]] *)
Definition alnum_dash : cclass :=
  CUnion lower_letters (CUnion upper_letters (CUnion digit_range (CChar "-"))).
(** [[a-zA-Z\-_]] *)
Definition alpha_dash_us : cclass :=
  CUnion lower_letters (CUnion upper_letters (CUnion (CChar "-") (CChar "_"))).
(** [[a-zA-Z0-9\-_]] *)
Definition alnum_dash_us : cclass :=
  CUnion lower_letters
    (CUnion upper_letters (CUnion digit_range (CUnion (CChar "-") (CChar "_")))).

Definition _SPICE_TYPE_MAPPING : list (string * string) :=
  [ ("ah.bc", "attitude_history");
    ("ap.bc", "attitude_predict");
    ("spin.csv", "spin");
    ("repoint.csv", "repoint");
    ("recon", "ephemeris_reconstructed");
    ("nom", "ephemeris_nominal");
    ("pred", "ephemeris_predicted");
    ("90days", "ephemeris_90days");
    ("long", "ephemeris_long");
    ("launch", "ephemeris_launch");
    ("de", "planetary_ephemeris");
    ("pck", "planetary_constants");
    ("naif", "leapseconds");
    ("imapsclk_", "spacecraft_clock");
    ("tf", "frames");
    ("tm", "metakernel");
    ("sff", "thruster") ].

Definition _SPICE_DIR_MAPPING : list (string * string) :=
  [ ("attitude_history", "ck");
    ("attitude_predict", "ck");
    ("spin", "spin");
    ("repoint", "repoint");
    ("ephemeris_reconstructed", "spk");
    ("ephemeris_nominal", "spk");
    ("ephemeris_predicted", "spk");
    ("ephemeris_90days", "spk");
    ("ephemeris_long", "spk");
    ("ephemeris_launch", "spk");
    ("planetary_ephemeris", "spk");
    ("planetary_constants", "pck");
    ("leapseconds", "lsk");
    ("spacecraft_clock", "sclk");
    ("frames", "fk");
    ("metakernel", "mk");
    ("thruster", "activities") ].

(** A metadata dictionary, in key order. *)
Definition dict := list (string * pyval).

(** A per-group conversion handed to [_extract_parts]. *)
Definition transform := option string -> result pyval.

Module SPICEFilePath.

(** Historical attitude (ah.bc), predicted attitude (ap.bc), spin files. *)
Definition attitude_file_pattern : regex :=
  (Grp "mission" (lit "imap") +++ lit "_" +++
   Grp "start_year" (exactly 4 CDigit) +++ lit "_" +++
   Grp "start_doy" (exactly 3 CDigit) +++ lit "_" +++
   Grp "end_year" (exactly 4 CDigit) +++ lit "_" +++
   Grp "end_doy" (exactly 3 CDigit) +++ lit "_" +++
   Grp "version" (plus CDigit) +++ lit "." +++
   Grp "type" (lit "ah" +++ any +++ lit "bc"
               ||| lit "ap" +++ any +++ lit "bc"
               ||| lit "spin" +++ any +++ lit "csv"))%re.

(** Repoint files. *)
Definition repoint_file_pattern : regex :=
  (Grp "mission" (lit "imap") +++ lit "_" +++
   Grp "start_year" (exactly 4 CDigit) +++ lit "_" +++
   Grp "start_doy" (exactly 3 CDigit) +++ lit "_" +++
   Grp "version" (plus CDigit) +++ lit "." +++
   Grp "type" (lit "repoint" +++ any +++ lit "csv"))%re.

(** Spacecraft ephemeris: recon, nom, pred, 90days, long, launch. *)
Definition spacecraft_ephemeris_file_pattern : regex :=
  (Grp "mission" (lit "imap") +++ lit "_" +++
   Grp "type" (plus alnum_dash) +++ lit "_" +++
   Grp "start_date" (exactly 8 CDigit) +++ lit "_" +++
   Grp "end_date" (exactly 8 CDigit) +++
   (Eps ||| lit "_v" +++ Grp "version" (star CDigit)) +++ lit "." +++
   Grp "extension" (lit "bsp"))%re.

(** Planetary ephemeris (de), planetary constants (pck), leap seconds
    (naif), spacecraft clock (imapsclk_). *)
Definition spice_prod_ver_pattern : regex :=
  (Grp "type" (plus alpha_dash_us) +++
   Grp "version" (plus CDigit) +++ lit "." +++
   Grp "extension" (lit "tls" ||| lit "tpc" ||| lit "bsp" ||| lit "tsc"))%re.

(** Frame kernels. *)
Definition spice_frame_pattern : regex :=
  (Grp "mission" (lit "imap") +++ lit "_" +++
   Grp "version" (plus CDigit) +++ lit "." +++
   Grp "type" (lit "tf"))%re.

(** Thruster files. *)
Definition sff_filename_pattern : regex :=
  (Grp "mission" (lit "imap") +++ lit "_" +++
   Grp "start_year" (exactly 4 CDigit) +++ lit "_" +++
   Grp "start_doy" (exactly 3 CDigit) +++ lit "_" +++
   Grp "mode" (plus alnum_dash_us) +++ lit "_" +++
   Grp "version" (exactly 2 CDigit) +++ lit "." +++
   Grp "type" (lit "sff"))%re.

(** Metakernels. *)
Definition mk_filename_pattern : regex :=
  (Grp "mission" (lit "imap") +++ lit "_" +++
   Grp "start_year" (exactly 4 CDigit) +++ lit "_" +++
   lit "v" +++ Grp "version" (exactly 3 CDigit) +++ lit "." +++
   Grp "type" (lit "tm"))%re.

Definition valid_spice_regexes : list regex :=
  [ attitude_file_pattern;
    repoint_file_pattern;
    spacecraft_ephemeris_file_pattern;
    spice_prod_ver_pattern;
    spice_frame_pattern;
    sff_filename_pattern;
    mk_filename_pattern ].


Record t : Type := mk {
  filename : Path;
  spice_metadata : dict
}.

Definition invalid_message : string :=
  "Invalid SPICE file. Expected file to have one of the following file types "
  ++ repr_list (map fst _SPICE_DIR_MAPPING)
  ++ ". Please reference the documentation to ensure the file has the "
  ++ "proper naming convention ".

(** The first regular expression of the list that matches. *)
Fixpoint _matches_on_group (regex_list : list regex) (string_to_parse : string)
  : option Match :=
  match regex_list with
  | [] => None
  | re :: rest =>
    match re_match re string_to_parse with
    | Some m => Some m
    | None => _matches_on_group rest string_to_parse
    end
  end.

(** The loop over the keys of [groupdict()]: each value is replaced by the
    group's text, passed through the group's transform when it has one. *)
Fixpoint transform_parts (transforms : option (list (string * transform)))
         (m : Match) (keys : list string) : result dict :=
  match keys with
  | [] => Ok []
  | part :: rest =>
    v <- match transforms with
         | Some ts =>
           match lookup part ts with
           | Some f => f (group m part)
           | None => Ok (of_group (group m part))
           end
         | None => Ok (of_group (group m part))
         end ;;
    vs <- transform_parts transforms m rest ;;
    Ok ((part, v) :: vs)
  end.

Definition _extract_parts (file_name : string)
           (transforms : option (list (string * transform)))
  : result (option dict) :=
  let name := Path_name (Path_of_str file_name) in
  match _matches_on_group valid_spice_regexes (lower name) with
  | None => Ok None
  | Some m =>
    ret_val <- transform_parts transforms m (m_names m) ;;
    Ok (Some ret_val)
  end.

(** [lambda x: _SPICE_TYPE_MAPPING.get(x, None)] *)
Definition type_transform : transform :=
  fun x =>
    match x with
    | Some raw => Ok (of_group (lookup raw _SPICE_TYPE_MAPPING))
    | None => Ok PNone
    end.

(** [lambda x: int(x)] *)
Definition version_transform : transform :=
  fun x => v <- py_int x ;; Ok (PInt v).

Definition extract_filename_components (file_name : string)
  : result (option dict) :=
  _extract_parts file_name
    (Some [("type", type_transform); ("version", version_transform)]).

(** [SPICEFilePath(filename)] *)
Definition init (file_name : string) : result t :=
  spice_metadata <- extract_filename_components file_name ;;
  match spice_metadata with
  | None => Raise (InvalidSPICEFileError invalid_message)
  | Some md => Ok (mk (Path_of_str file_name) md)
  end.

(** [d[key]] on the directory table: the key is whatever the metadata
    holds under "type". *)
Definition dir_of (v : pyval) : result string :=
  match v with
  | PStr ty =>
    match lookup ty _SPICE_DIR_MAPPING with
    | Some d => Ok d
    | None => Raise KeyError
    end
  | _ => Raise KeyError
  end.

Definition construct_path (cfg : Config) (self : t) : result Path :=
  match DATA_DIR cfg with
  | None => Raise TypeError
  | Some data_dir =>
    let spice_dir := data_dir // Path_of_str "spice" in
    match lookup "type" (spice_metadata self) with
    | None => Raise KeyError
    | Some ty =>
      subdir <- dir_of ty ;;
      Ok (spice_dir // Path_of_str subdir // filename self)
    end
  end.

End SPICEFilePath.

(* ================================================================== *)
(** ** Science files *)

Module ScienceFilePath.

Definition pattern : regex :=
  (Bol +++ Grp "mission" (lit "imap") +++ lit "_" +++
   Grp "instrument" (plus (CNot "_")) +++ lit "_" +++
   Grp "data_level" (plus (CNot "_")) +++ lit "_" +++
   Grp "descriptor" (plus (CNot "_")) +++ lit "_" +++
   Grp "start_date" (exactly 8 CDigit) +++
   Opt (lit "-repoint" +++ Grp "repointing" (exactly 5 CDigit)) +++
   lit "_" +++ Grp "version" (lit "v" +++ exactly 3 CDigit) +++
   lit "." +++ Grp "extension" (lit "cdf" ||| lit "pkts") +++ Eol)%re.

(** The [r"^v\d{3}$"] of [validate_filename]. *)
Definition version_pattern : regex :=
  (Bol +++ lit "v" +++ exactly 3 CDigit +++ Eol)%re.

(** The components dictionary; [repointing] is the only value that is not
    a string or [None]. *)
Record components : Type := mkComponents {
  c_mission : option string;
  c_instrument : option string;
  c_data_level : option string;
  c_descriptor : option string;
  c_start_date : option string;
  c_repointing : pyval;
  c_version : option string;
  c_extension : option string
}.

Record t : Type := mk {
  filename : Path;
  data_dir : option Path;
  mission : option string;
  instrument : option string;
  data_level : option string;
  descriptor : option string;
  start_date : option string;
  repointing : pyval;
  version : option string;
  extension : option string
}.

(** The argument is always a [Path] when [__init__] calls it, so the name
    component is what gets matched. *)
Definition extract_filename_components (cfg : Config) (file : Path)
  : result components :=
  let name := Path_name file in
  match re_match pattern name with
  | None =>
    Raise (InvalidScienceFileError
             ("Filename " ++ name ++ " does not match expected pattern: "
              ++ FILENAME_CONVENTION cfg))
  | Some m =>
    repointing <-
      (if truthy (of_group (group m "repointing"))
       then v <- py_int (group m "repointing") ;; Ok (PInt v)
       else Ok (of_group (group m "repointing"))) ;;
    Ok (mkComponents (group m "mission") (group m "instrument")
                     (group m "data_level") (group m "descriptor")
                     (group m "start_date") repointing
                     (group m "version") (group m "extension"))
  end.

Definition missing (attr : option string) : bool :=
  match attr with
  | None => true
  | Some s => String.eqb s ""
  end.

Definition opt_eqb (x : option string) (s : string) : bool :=
  match x with
  | Some v => String.eqb v s
  | None => false
  end.

Definition opt_in (x : option string) (l : list string) : bool :=
  match x with
  | Some v => str_in v l
  | None => false
  end.

(** [bool(re.match(pattern, text))]; [None] as text is a [TypeError]. *)
Definition matches (r : regex) (text : option string) : result bool :=
  match text with
  | None => Raise TypeError
  | Some s => Ok (match re_match r s with Some _ => true | None => false end)
  end.

Definition validate_filename (cfg : Config) (self : t) : result string :=
  let error_message :=
    if existsb missing
         [mission self; instrument self; data_level self; descriptor self;
          start_date self; version self; extension self]
    then "Invalid filename, missing attribute. Filename convention is "
         ++ FILENAME_CONVENTION cfg ++ " " ++ String newline ""
    else "" in
  let error_message :=
    if negb (opt_eqb (mission self) "imap")
    then error_message ++ "Invalid mission " ++ fmt (mission self)
         ++ ". Please use imap " ++ String newline ""
    else error_message in
  let error_message :=
    if negb (opt_in (instrument self) (VALID_INSTRUMENTS cfg))
    then error_message ++ "Invalid instrument " ++ fmt (instrument self)
         ++ ". Please choose from " ++ VALID_INSTRUMENTS_text cfg ++ " "
         ++ String newline ""
    else error_message in
  let error_message :=
    if negb (opt_in (data_level self) (VALID_DATALEVELS cfg))
    then error_message ++ "Invalid data level " ++ fmt (data_level self)
         ++ ". Please choose from " ++ VALID_DATALEVELS_text cfg ++ " "
         ++ String newline ""
    else error_message in
  date_ok <- is_valid_date (start_date self) ;;
  let error_message :=
    if negb date_ok
    then error_message
         ++ "Invalid start date format. Please use YYYYMMDD format. "
         ++ String newline ""
    else error_message in
  version_ok <- matches version_pattern (version self) ;;
  let error_message :=
    if negb version_ok
    then error_message ++ "Invalid version format. Please use vXXX format. "
         ++ String newline ""
    else error_message in
  let error_message :=
    if truthy (repointing self) && negb (isinstance_int (repointing self))
    then error_message ++ "The repointing number should be an integer."
         ++ String newline ""
    else error_message in
  let error_message :=
    if negb (opt_in (extension self) (VALID_FILE_EXTENSION cfg))
       || (opt_eqb (data_level self) "l0"
           && negb (opt_eqb (extension self) "pkts")
           || negb (opt_eqb (data_level self) "l0")
              && negb (opt_eqb (extension self) "cdf"))
    then error_message
         ++ "Invalid extension. Extension should be pkts for data "
         ++ "level l0 and cdf for data level higher than l0 "
         ++ String newline ""
    else error_message in
  Ok error_message.

(** [ScienceFilePath(filename)].  The [except ValueError] around the
    extraction never fires: a mismatch raises [InvalidScienceFileError],
    which is not a [ValueError], and passes through. *)
Definition init (cfg : Config) (file_name : string) : result t :=
  let file := Path_of_str file_name in
  split_filename <-
    match extract_filename_components cfg file with
    | Raise (ValueError _) =>
      Raise (InvalidScienceFileError
               ("Invalid filename. Expected file to match format: "
                ++ FILENAME_CONVENTION cfg))
    | r => r
    end ;;
  let self :=
    mk file (DATA_DIR cfg)
       (c_mission split_filename) (c_instrument split_filename)
       (c_data_level split_filename) (c_descriptor split_filename)
       (c_start_date split_filename) (c_repointing split_filename)
       (c_version split_filename) (c_extension split_filename) in
  error_message <- validate_filename cfg self ;;
  if negb (String.eqb error_message "")
  then Raise (InvalidScienceFileError error_message)
  else Ok self.

Definition generate_from_inputs (cfg : Config)
           (instrument data_level descriptor start_time version : string)
           (repointing : option Z) : result t :=
  let extension := if String.eqb data_level "l0" then "pkts" else "cdf" in
  let time_field :=
    match repointing with
    | Some r =>
      if negb (r =? 0)%Z then start_time ++ "-repoint" ++ format_05d r
      else start_time
    | None => start_time
    end in
  let file_name :=
    "imap_" ++ instrument ++ "_" ++ data_level ++ "_" ++ descriptor ++ "_"
    ++ time_field ++ "_" ++ version ++ "." ++ extension in
  init cfg file_name.

(** [s[a:b]] on an attribute; slicing [None] is a [TypeError]. *)
Definition slice (a b : nat) (x : option string) : result string :=
  match x with
  | None => Raise TypeError
  | Some s => Ok (take (b - a) (drop a s))
  end.

Definition construct_path (self : t) : result Path :=
  yyyy <- slice 0 4 (start_date self) ;;
  mm <- slice 4 6 (start_date self) ;;
  let upload_path :=
    Path_of_str (fmt (mission self) ++ "/" ++ fmt (instrument self) ++ "/"
                 ++ fmt (data_level self) ++ "/" ++ yyyy ++ "/" ++ mm ++ "/"
                 ++ Path_str (filename self)) in
  match data_dir self with
  | Some d => Ok (d // upload_path)
  | None => Ok upload_path
  end.

End ScienceFilePath.

(* ================================================================== *)
(** ** Ancillary files *)

Module AncillaryFilePath.

Definition pattern : regex :=
  (Bol +++ Grp "mission" (lit "imap") +++ lit "_" +++
   Grp "instrument" (plus (CNot "_")) +++ lit "_" +++
   Grp "descriptor" (plus (CNot "_")) +++ lit "_" +++
   Grp "start_date" (exactly 8 CDigit) +++
   Opt (lit "_" +++ Grp "end_date" (exactly 8 CDigit)) +++
   lit "_" +++ Grp "version" (lit "v" +++ exactly 3 CDigit) +++
   lit "." +++ Grp "extension" (lit "cdf" ||| lit "csv" ||| lit "json")
   +++ Eol)%re.

Record t : Type := mk {
  filename : Path;
  data_dir : option Path;
  mission : option string;
  instrument : option string;
  descriptor : option string;
  start_date : option string;
  end_date : option string;
  version : option string;
  extension : option string
}.

Definition extract_filename_components (cfg : Config) (file : Path)
  : result (list (string * option string)) :=
  let name := Path_name file in
  match re_match pattern name with
  | None =>
    Raise (InvalidAncillaryFileError
             ("Filename " ++ name ++ " does not match expected pattern: "
              ++ ANCILLARY_FILENAME_CONVENTION cfg))
  | Some m => Ok (groupdict m)
  end.

(** [d[key]] on a components dictionary. *)
Definition item (d : list (string * option string)) (key : string)
  : result (option string) :=
  match lookup key d with
  | Some v => Ok v
  | None => Raise KeyError
  end.

Definition validate_filename (cfg : Config) (self : t) : result string :=
  let error_message :=
    if existsb ScienceFilePath.missing
         [mission self; instrument self; descriptor self; version self;
          extension self]
    then "Invalid filename, missing attribute. Filename convention is "
         ++ ANCILLARY_FILENAME_CONVENTION cfg ++ " " ++ String newline ""
    else "" in
  let error_message :=
    if negb (ScienceFilePath.opt_eqb (mission self) "imap")
    then error_message ++ "Invalid mission " ++ fmt (mission self)
         ++ ". Please use imap " ++ String newline ""
    else error_message in
  let error_message :=
    if negb (ScienceFilePath.opt_in (instrument self) (VALID_INSTRUMENTS cfg))
    then error_message ++ "Invalid instrument " ++ fmt (instrument self)
         ++ ". Please choose from " ++ VALID_INSTRUMENTS_text cfg ++ " "
         ++ String newline ""
    else error_message in
  let error_message :=
    if negb (ScienceFilePath.opt_in (extension self)
               (VALID_ANCILLARY_FILE_EXTENSION cfg))
    then error_message ++ "Invalid extension. Extension should be cdf. "
         ++ String newline ""
    else error_message in
  start_ok <- is_valid_date (start_date self) ;;
  let error_message :=
    if negb start_ok
    then error_message
         ++ "Invalid start date format. Please use YYYYMMDD format. "
         ++ String newline ""
    else error_message in
  if truthy (of_group (end_date self)) then
    end_ok <- is_valid_date (end_date self) ;;
    Ok (if negb end_ok
        then error_message
             ++ "Invalid end date format. Please use YYYYMMDD format. "
             ++ String newline ""
        else error_message)
  else Ok error_message.

(** [AncillaryFilePath(filename)]; as for science files the
    [except ValueError] never fires. *)
Definition init (cfg : Config) (file_name : string) : result t :=
  let file := Path_of_str file_name in
  split_filename <-
    match extract_filename_components cfg file with
    | Raise (ValueError _) =>
      Raise (InvalidAncillaryFileError
               ("Invalid filename. Expected file to match format: "
                ++ ANCILLARY_FILENAME_CONVENTION cfg))
    | r => r
    end ;;
  mission <- item split_filename "mission" ;;
  instrument <- item split_filename "instrument" ;;
  descriptor <- item split_filename "descriptor" ;;
  start_date <- item split_filename "start_date" ;;
  end_date <- item split_filename "end_date" ;;
  version <- item split_filename "version" ;;
  extension <- item split_filename "extension" ;;
  let self :=
    mk file (DATA_DIR cfg) mission instrument descriptor start_date end_date
       version extension in
  error_message <- validate_filename cfg self ;;
  if negb (String.eqb error_message "")
  then Raise (InvalidAncillaryFileError error_message)
  else Ok self.

Definition generate_from_inputs (cfg : Config)
           (instrument descriptor version extension start_time : string)
           (end_time : option string) : result t :=
  let file_name :=
    if truthy (of_group end_time)
    then "imap_" ++ instrument ++ "_" ++ descriptor ++ "_" ++ start_time
         ++ "_" ++ fmt end_time ++ "_" ++ version ++ "." ++ extension
    else "imap_" ++ instrument ++ "_" ++ descriptor ++ "_" ++ start_time
         ++ "_" ++ version ++ "." ++ extension in
  init cfg file_name.

Definition construct_path (self : t) : Path :=
  let upload_path :=
    Path_of_str (fmt (mission self) ++ "/ancillary/" ++ fmt (instrument self)
                 ++ "/" ++ Path_str (filename self)) in
  match data_dir self with
  | Some d => d // upload_path
  | None => upload_path
  end.

End AncillaryFilePath.

(* ================================================================== *)
(** ** The dispatcher *)

Inductive ImapFilePath : Type :=
| SPICE (p : SPICEFilePath.t)
| Science (p : ScienceFilePath.t)
| Ancillary (p : AncillaryFilePath.t).

Definition no_match_message (file_name : string) : string :=
  "Invalid file type for " ++ file_name ++ ". It does not match"
  ++ "Spice, Science or Ancillary file formats".

(** Each [except] clause names one exception class; anything else raised
    inside the [try] leaves the function as it is. *)
Definition generate_imap_file_path (cfg : Config) (file_name : string)
  : result ImapFilePath :=
  match SPICEFilePath.init file_name with
  | Ok p => Ok (SPICE p)
  | Raise (InvalidSPICEFileError _) =>
    match ScienceFilePath.init cfg file_name with
    | Ok p => Ok (Science p)
    | Raise (InvalidScienceFileError _) =>
      match AncillaryFilePath.init cfg file_name with
      | Ok p => Ok (Ancillary p)
      | Raise (InvalidAncillaryFileError _) =>
        Raise (ValueError (no_match_message file_name))
      | Raise e => Raise e
      end
    | Raise e => Raise e
    end
  | Raise e => Raise e
  end.

(* ================================================================== *)
(** ** A configuration to run examples with

    The instruments are the ones the class docstrings list; the data
    directory is [/data]. *)

Definition example_config : Config :=
  mkConfig (Some (Path_of_str "/data"))
           ["codice"; "glows"; "hi"; "hit"; "idex"; "lo"; "mag"; "swapi";
            "swe"; "ultra"]
           ["l0"; "l1"; "l1a"; "l1b"; "l3a"]
           ["cdf"; "pkts"]
           ["cdf"; "csv"; "json"]
           "<mission>_<instrument>_<datalevel>_<descriptor>_<startdate>_<version>.<extension>"
           "<mission>_<instrument>_<descriptor>_<start_date>_<version>.<extension>"
           "{'codice', 'glows', 'hi', 'hit', 'idex', 'lo', 'mag', 'swapi', 'swe', 'ultra'}"
           "{'l0', 'l1', 'l1a', 'l1b', 'l3a'}".

(* ================================================================== *)
(** ** What a pattern accepts

    [Sem subj r u rest c c']: the pattern [r] can consume the text [u] when
    [rest] follows it, turning the captures [c] into [c'].  The matcher
    explores these readings in priority order; the relation forgets the
    order. *)

Fixpoint Sem (subj : string) (r : regex) (u rest : string)
         (c c' : captures) : Prop :=
  match r with
  | Eps => u = "" /\ c' = c
  | Bol => u = "" /\ c' = c /\ String.length rest = String.length subj
  | Eol => u = "" /\ c' = c /\ at_end rest = true
  | Cls p => (exists ch, u = String ch "" /\ in_class p ch = true) /\ c' = c
  | Rep p lo hi =>
    forall_chars (in_class p) u = true /\ lo <= String.length u
    /\ (forall h, hi = Some h -> String.length u <= h) /\ c' = c
  | Seq r1 r2 =>
    exists u1 u2 c1,
      u = u1 ++ u2 /\ Sem subj r1 u1 (u2 ++ rest) c c1
      /\ Sem subj r2 u2 rest c1 c'
  | Alt r1 r2 => Sem subj r1 u rest c c' \/ Sem subj r2 u rest c c'
  | Opt r1 => Sem subj r1 u rest c c' \/ (u = "" /\ c' = c)
  | Grp n r1 => exists c1, Sem subj r1 u rest c c1 /\ c' = (n, u) :: c1
  end.

(** A filename as opposed to a path: no separator in it. *)
Definition plain_name (s : string) : bool :=
  forall_chars (in_class (CNot "/")) s.

Definition no_underscore (s : string) : bool :=
  forall_chars (in_class (CNot "_")) s.

Definition all_digits (s : string) : bool :=
  forall_chars is_digit s.

(** The text a science file name must have for its pattern to match, and
    the components the match yields.  [rp] is the repointing digits when
    the optional part is there. *)
Definition repoint_text (rp : option string) : string :=
  match rp with
  | Some r => "-repoint" ++ r
  | None => ""
  end.

Definition science_name (i dl desc date : string) (rp : option string)
           (v3 ext tail : string) : string :=
  "imap_" ++ i ++ "_" ++ dl ++ "_" ++ desc ++ "_" ++ date ++ repoint_text rp
  ++ "_v" ++ v3 ++ "." ++ ext ++ tail.

Definition end_text (ed : option string) : string :=
  match ed with
  | Some e => "_" ++ e
  | None => ""
  end.

Definition ancillary_name (i desc date : string) (ed : option string)
           (v3 ext tail : string) : string :=
  "imap_" ++ i ++ "_" ++ desc ++ "_" ++ date ++ end_text ed
  ++ "_v" ++ v3 ++ "." ++ ext ++ tail.

(** One component of a path: a plain name that is neither empty nor ".". *)
Definition component (s : string) : Prop :=
  plain_name s = true /\ s <> "" /\ s <> ".".

Definition token (s : string) : Prop :=
  s <> "" /\ no_underscore s = true.

Definition digits_of_length (n : nat) (s : string) : Prop :=
  String.length s = n /\ all_digits s = true.

Definition with_newline (s : string) : string := s ++ String newline "".

(** The field tuples of [generate_from_inputs]. *)
Definition version_form (ver : string) : Prop :=
  exists v3, ver = "v" ++ v3 /\ digits_of_length 3 v3.

Definition real_date (s : string) : Prop :=
  digits_of_length 8 s /\ is_valid_date (Some s) = Ok true.

(** A valid field tuple as the specification words it. *)
Definition valid_science_fields (cfg : Config)
           (instrument data_level descriptor start_time version : string)
           (repointing : option Z) : Prop :=
  str_in instrument (VALID_INSTRUMENTS cfg) = true
  /\ str_in data_level (VALID_DATALEVELS cfg) = true
  /\ token descriptor
  /\ real_date start_time
  /\ version_form version
  /\ (forall r, repointing = Some r -> (0 < r)%Z).

(** The repointing value an object built from the tuple holds. *)
Definition repointing_value (repointing : option Z) : pyval :=
  match repointing with
  | Some r => PInt r
  | None => PNone
  end.

Definition digits10 : list Z := [0; 1; 2; 3; 4; 5; 6; 7; 8; 9]%Z.

(** Formatting with [05d] gives five digits that [int] reads back. *)
Definition repoint_ok (r : Z) : bool :=
  let s := format_05d r in
  Nat.eqb (String.length s) 5 && all_digits s
  && match py_int (Some s) with
     | Ok v => (v =? r)%Z
     | Raise _ => false
     end.

(* ================================================================== *)
(** ** The two format checks that use [re.fullmatch] *)

(** [re.fullmatch(pattern, s)]: the match has to end where [s] ends, and
    the matcher backtracks until it does. *)
Definition re_fullmatch (r : regex) (s : string) : option Match :=
  rmatch s r s []
    (fun s' caps =>
       match s' with
       | "" => Some (mkMatch (group_names r) caps s')
       | _ => None
       end).

(** What [x == "latest" or re.fullmatch(...)] evaluates to: [True], a match
    object or [None]. *)
Inductive true_or_match : Type :=
| IsTrue
| IsMatch (m : Match)
| IsNone.

Definition holds (v : true_or_match) : bool :=
  match v with
  | IsTrue | IsMatch _ => true
  | IsNone => false
  end.

(** [ImapFilePath.is_valid_version], pattern [v\d{3}]. *)
Definition is_valid_version (input_version : string) : true_or_match :=
  if String.eqb input_version "latest" then IsTrue
  else match re_fullmatch (lit "v" +++ exactly 3 CDigit)%re input_version with
       | Some m => IsMatch m
       | None => IsNone
       end.

(** [ScienceFilePath.is_valid_repointing], pattern [repoint\d{5}]; [str]
    of a string is the string. *)
Definition is_valid_repointing (input_repointing : string) : option Match :=
  re_fullmatch (lit "repoint" +++ exactly 5 CDigit)%re input_repointing.

(** The number a run of decimal digits writes. *)
Fixpoint decimal_value (acc : Z) (s : string) : Z :=
  match s with
  | "" => acc
  | String c s' => decimal_value (10 * acc + digit_value c) s'
  end.

(* ================================================================== *)
(** ** Vocabulary for the calendar property of [is_valid_date] *)

Fixpoint no_bol (r : regex) : bool :=
  match r with
  | Bol => false
  | Seq r1 r2 | Alt r1 r2 => no_bol r1 && no_bol r2
  | Opt r1 | Grp _ r1 => no_bol r1
  | _ => true
  end.

Definition digit_chars : list ascii :=
  ["0"; "1"; "2"; "3"; "4"; "5"; "6"; "7"; "8"; "9"]%char.

(** The month and day part of [strptime_Ymd_pattern]. *)
Definition strptime_md_pattern : regex :=
  match strptime_Ymd_pattern with
  | Seq _ md => md
  | r => r
  end.

Definition opt_string_eqb (x y : option string) : bool :=
  match x, y with
  | Some a, Some b => String.eqb a b
  | None, None => true
  | _, _ => false
  end.

(** For two month characters and two day characters: either the month and
    day part matches all four and captures them two by two, or the numbers
    they write are no month or no day of any month. *)
Definition md_check (a b c d : ascii) : bool :=
  let m := String a (String b "") in
  let dd := String c (String d "") in
  let mv := decimal_value 0 m in
  let dv := decimal_value 0 dd in
  match rmatch "" strptime_md_pattern
          (String a (String b (String c (String d "")))) []
          (fun s' c' => Some (c', s')) with
  | Some (caps, "") =>
    opt_string_eqb (lookup "Y" caps) None
    && opt_string_eqb (lookup "m" caps) (Some m)
    && opt_string_eqb (lookup "d" caps) (Some dd)
  | _ => ((mv <? 1) || (12 <? mv) || (dv <? 1) || (31 <? dv))%Z
  end.

(** What holding a science object tells about the name it was built from
    and about the object. *)
Definition accepted_science (cfg : Config) (file_name : string)
           (p : ScienceFilePath.t) : Prop :=
  exists i dl desc date rp v3 ext tail,
    Path_name (Path_of_str file_name)
    = science_name i dl desc date rp v3 ext tail
    /\ (tail = "" \/ tail = String newline "")
    /\ token i /\ token dl /\ token desc
    /\ digits_of_length 8 date
    /\ (forall r, rp = Some r -> digits_of_length 5 r)
    /\ digits_of_length 3 v3
    /\ p = ScienceFilePath.mk (Path_of_str file_name) (DATA_DIR cfg)
             (Some "imap") (Some i) (Some dl) (Some desc) (Some date)
             (match rp with
              | Some r => PInt (decimal_value 0 r)
              | None => PNone
              end)
             (Some ("v" ++ v3)) (Some ext)
    /\ str_in i (VALID_INSTRUMENTS cfg) = true
    /\ str_in dl (VALID_DATALEVELS cfg) = true
    /\ is_valid_date (Some date) = Ok true
    /\ str_in ext (VALID_FILE_EXTENSION cfg) = true
    /\ ext = (if String.eqb dl "l0" then "pkts" else "cdf").


(* ================================================================== *)
(** * Properties *)

(** ** Strings *)

Lemma append_nil_r (s : string) : s ++ "" = s.
Proof. induction s; simpl; congruence. Qed.

Lemma append_assoc (a b c : string) : (a ++ b) ++ c = a ++ b ++ c.
Proof. induction a; simpl; congruence. Qed.

Lemma append_length (a b : string) :
  String.length (a ++ b) = String.length a + String.length b.
Proof. induction a; simpl; congruence. Qed.

Lemma take_append (a b : string) :
  take (String.length (a ++ b) - String.length b) (a ++ b) = a.
Proof.
  rewrite append_length.
  replace (String.length a + String.length b - String.length b)
    with (String.length a) by lia.
  induction a; simpl.
  - destruct b; reflexivity.
  - congruence.
Qed.

Lemma append_eq_nil (a b : string) : a ++ b = "" -> a = "" /\ b = "".
Proof. destruct a; simpl; [auto | discriminate]. Qed.

Lemma append_inv_head (a b c : string) : a ++ b = a ++ c -> b = c.
Proof. induction a; simpl; intros H; [exact H | injection H; auto]. Qed.

Lemma append_inv_length (a b x y : string) :
  String.length a = String.length b -> a ++ x = b ++ y -> a = b /\ x = y.
Proof.
  revert b; induction a as [|ch a IH]; intros [|ch' b] Hl H;
    simpl in *; try discriminate; auto.
  injection H as -> H. injection Hl as Hl.
  destruct (IH _ Hl H) as [-> ->]. auto.
Qed.

Lemma forall_chars_append p (a b : string) :
  forall_chars p (a ++ b) = forall_chars p a && forall_chars p b.
Proof.
  induction a; simpl; [reflexivity|].
  rewrite IHa. now rewrite andb_assoc.
Qed.

Lemma forall_chars_impl (p q : ascii -> bool) (s : string) :
  (forall c, p c = true -> q c = true) ->
  forall_chars p s = true -> forall_chars q s = true.
Proof.
  intros Hpq. induction s; simpl; [reflexivity|].
  intros H. apply andb_true_iff in H as [H1 H2].
  rewrite (Hpq _ H1), (IHs H2). reflexivity.
Qed.

(** Two texts cut at their first separator are cut at the same place. *)
Lemma append_sep_inj (sep : ascii) (a b x y : string) :
  forall_chars (in_class (CNot sep)) a = true ->
  forall_chars (in_class (CNot sep)) b = true ->
  a ++ String sep x = b ++ String sep y -> a = b /\ x = y.
Proof.
  revert b. induction a as [|ch a IH]; intros [|ch' b] Ha Hb H; simpl in *.
  - injection H as ->. auto.
  - injection H as <- _. rewrite Ascii.eqb_refl in Hb. discriminate.
  - injection H as -> _. rewrite Ascii.eqb_refl in Ha. discriminate.
  - injection H as -> H.
    apply andb_true_iff in Ha as [_ Ha]. apply andb_true_iff in Hb as [_ Hb].
    destruct (IH _ Ha Hb H) as [-> ->]. auto.
Qed.

(** ** The matcher against the declarative reading *)

Section MatcherFacts.
Context {R : Type}.
Variable subj : string.

Lemma rep_match_sound p :
  forall s lo hi (k : string -> option R) x,
    rep_match p lo hi s k = Some x ->
    exists u s',
      s = u ++ s' /\ forall_chars (in_class p) u = true
      /\ lo <= String.length u
      /\ (forall h, hi = Some h -> String.length u <= h)
      /\ k s' = Some x.
Proof.
  assert (Hstop : forall s lo hi (k : string -> option R) x,
             match lo with O => k s | S _ => None end = Some x ->
             exists u s',
               s = u ++ s' /\ forall_chars (in_class p) u = true
               /\ lo <= String.length u
               /\ (forall h, hi = Some h -> String.length u <= h)
               /\ k s' = Some x).
  { intros s lo hi k x H. destruct lo; [|discriminate].
    exists "", s. simpl. repeat split; auto. intros; lia. }
  induction s as [|ch s IH]; intros lo hi k x H.
  - apply Hstop. destruct hi as [[|h]|]; exact H.
  - assert (Hne : hi = Some 0 \/ hi <> Some 0).
    { destruct hi as [[|h]|]; [left; reflexivity | right; discriminate
                               | right; discriminate]. }
    destruct Hne as [-> | Hne]; [apply Hstop; exact H|].
    assert (H' :
              (if in_class p ch
               then match rep_match p (Nat.pred lo) (option_map Nat.pred hi) s k with
                    | Some y => Some y
                    | None => match lo with O => k (String ch s) | S _ => None end
                    end
               else match lo with O => k (String ch s) | S _ => None end)
              = Some x).
    { destruct hi as [[|h]|]; try exact H. congruence. }
    clear H. destruct (in_class p ch) eqn:Hc; [|apply Hstop; exact H'].
    destruct (rep_match p (Nat.pred lo) (option_map Nat.pred hi) s k)
      as [y|] eqn:Hr; [|apply Hstop; exact H'].
    injection H' as ->.
    destruct (IH _ _ _ _ Hr) as (u & s' & -> & Hu & Hlo & Hhi & Hk).
    exists (String ch u), s'. simpl. rewrite Hc, Hu.
    repeat split; auto; [lia|].
    intros h ->. destruct h as [|h]; [congruence|].
    specialize (Hhi h eq_refl). lia.
Qed.

Lemma rep_match_complete p :
  forall u s' lo hi (k : string -> option R) x,
    forall_chars (in_class p) u = true ->
    lo <= String.length u ->
    (forall h, hi = Some h -> String.length u <= h) ->
    k s' = Some x ->
    exists y, rep_match p lo hi (u ++ s') k = Some y.
Proof.
  induction u as [|ch u IH]; intros s' lo hi k x Hu Hlo Hhi Hk; simpl in *.
  - assert (lo = 0) by lia. subst lo.
    destruct s' as [|c s'']; simpl.
    + destruct hi as [[|h]|]; eauto.
    + destruct hi as [[|h]|]; eauto;
        destruct (in_class p c); eauto;
        destruct (rep_match p 0 _ s'' k); eauto.
  - apply andb_true_iff in Hu as [Hc Hu]. rewrite Hc.
    assert (Hne : hi <> Some 0).
    { intros ->. specialize (Hhi 0 eq_refl). lia. }
    destruct (IH s' (Nat.pred lo) (option_map Nat.pred hi) k x Hu) as [y Hy];
      [lia | | exact Hk |].
    { intros h Hh. destruct hi as [h0|]; [|discriminate].
      simpl in Hh. injection Hh as <-. specialize (Hhi h0 eq_refl). lia. }
    exists y. destruct hi as [[|h]|]; try congruence; rewrite Hy; reflexivity.
Qed.

Lemma rmatch_sound r :
  forall s c (k : string -> captures -> option R) x,
    rmatch subj r s c k = Some x ->
    exists u s' c',
      s = u ++ s' /\ Sem subj r u s' c c' /\ k s' c' = Some x.
Proof.
  induction r as [| | |p|p lo hi|r1 IH1 r2 IH2|r1 IH1 r2 IH2|r1 IH1|n r1 IH1];
    intros s c k x H; simpl in H.
  - exists "", s, c. simpl. auto.
  - destruct (Nat.eqb _ _) eqn:E; [|discriminate].
    apply Nat.eqb_eq in E. exists "", s, c. simpl. auto.
  - destruct (at_end s) eqn:E; [|discriminate].
    exists "", s, c. simpl. auto.
  - destruct s as [|ch s]; [discriminate|].
    destruct (in_class p ch) eqn:E; [|discriminate].
    exists (String ch ""), s, c. simpl. eauto 6.
  - apply rep_match_sound in H as (u & s' & -> & Hu & Hlo & Hhi & Hk).
    exists u, s', c. simpl. auto 6.
  - apply IH1 in H as (u1 & s1 & c1 & -> & S1 & H).
    apply IH2 in H as (u2 & s2 & c2 & -> & S2 & H).
    exists (u1 ++ u2), s2, c2. rewrite append_assoc. simpl. eauto 8.
  - destruct (rmatch subj r1 s c k) as [y|] eqn:E.
    + injection H as ->. apply IH1 in E as (u & s' & c' & -> & S1 & Hk).
      exists u, s', c'. simpl. auto.
    + apply IH2 in H as (u & s' & c' & -> & S2 & Hk).
      exists u, s', c'. simpl. auto.
  - destruct (rmatch subj r1 s c k) as [y|] eqn:E.
    + injection H as ->. apply IH1 in E as (u & s' & c' & -> & S1 & Hk).
      exists u, s', c'. simpl. auto.
    + exists "", s, c. simpl. auto.
  - apply IH1 in H as (u & s' & c' & -> & S1 & Hk).
    rewrite take_append in Hk.
    exists u, s', ((n, u) :: c'). simpl. eauto.
Qed.

Lemma rmatch_complete r :
  forall u s' c c' (k : string -> captures -> option R) x,
    Sem subj r u s' c c' -> k s' c' = Some x ->
    exists y, rmatch subj r (u ++ s') c k = Some y.
Proof.
  induction r as [| | |p|p lo hi|r1 IH1 r2 IH2|r1 IH1 r2 IH2|r1 IH1|n r1 IH1];
    intros u s' c c' k x HS Hk; simpl in HS |- *.
  - destruct HS as [-> ->]. eauto.
  - destruct HS as (-> & -> & E). simpl.
    apply Nat.eqb_eq in E. rewrite E. eauto.
  - destruct HS as (-> & -> & E). simpl. rewrite E. eauto.
  - destruct HS as ((ch & -> & E) & ->). simpl. rewrite E. eauto.
  - destruct HS as (Hu & Hlo & Hhi & ->).
    eapply rep_match_complete; eauto.
  - destruct HS as (u1 & u2 & c1 & -> & S1 & S2).
    rewrite append_assoc.
    destruct (IH2 _ _ _ _ k x S2 Hk) as [y Hy].
    eapply IH1; [exact S1 | exact Hy].
  - destruct HS as [S1 | S2].
    + destruct (IH1 _ _ _ _ k x S1 Hk) as [y ->]. eauto.
    + destruct (rmatch subj r1 (u ++ s') c k); eauto.
  - destruct HS as [S1 | [-> ->]].
    + destruct (IH1 _ _ _ _ k x S1 Hk) as [y ->]. eauto.
    + simpl. destruct (rmatch subj r1 s' c k); eauto.
  - destruct HS as (c1 & S1 & ->).
    eapply IH1; [exact S1|]. rewrite take_append. exact Hk.
Qed.
End MatcherFacts.

Lemma re_match_sound r s m :
  re_match r s = Some m ->
  exists u c',
    s = u ++ m_rest m /\ Sem s r u (m_rest m) [] c'
    /\ m = mkMatch (group_names r) c' (m_rest m).
Proof.
  unfold re_match. intros H.
  apply rmatch_sound in H as (u & s' & c' & -> & HS & Hk).
  injection Hk as <-. simpl. eauto.
Qed.

Lemma re_match_complete r u rest c' :
  Sem (u ++ rest) r u rest [] c' ->
  exists m, re_match r (u ++ rest) = Some m.
Proof.
  intros HS. unfold re_match.
  eapply rmatch_complete; [exact HS | reflexivity].
Qed.

Lemma Sem_lit subj t : forall u rest c c',
  Sem subj (lit t) u rest c c' <-> u = t /\ c' = c.
Proof.
  induction t as [|ch t IH]; intros u rest c c'; simpl.
  - tauto.
  - split.
    + intros (u1 & u2 & c1 & -> & ((x & -> & E) & ->) & H2).
      apply IH in H2 as [-> ->]. apply Ascii.eqb_eq in E. subst. auto.
    + intros [-> ->]. exists (String ch ""), t, c.
      repeat split; [exists ch; rewrite Ascii.eqb_refl; auto | apply IH; auto].
Qed.

(** Taking a pattern's reading apart. *)
Ltac sem_inv H :=
  cbn [Sem] in H;
  repeat match goal with
         | H' : exists _, _ |- _ => destruct H'
         | H' : _ /\ _ |- _ => destruct H'
         | H' : _ \/ _ |- _ => destruct H'
         | H' : Sem _ (lit _) _ _ _ _ |- _ => apply Sem_lit in H'
         end;
  subst.

(* ================================================================== *)
(** ** SPICE construction on the test suite's file names *)

(** C2. A SPICE name whose type token is not in the type table should be
    refused with [InvalidSPICEFileError] (the test suite expects it for
    the token "taco").  The code matches the ephemeris pattern, maps the
    token to [None] and returns an object. *)
Theorem C2_unknown_type_token_is_accepted :
  lookup "taco" _SPICE_TYPE_MAPPING = None
  /\ SPICEFilePath.init "imap_taco_20251320_20260220_v01.bsp"
     = Ok (SPICEFilePath.mk
             (mkPath "" ["imap_taco_20251320_20260220_v01.bsp"])
             [("mission", PStr "imap"); ("type", PNone);
              ("start_date", PStr "20251320"); ("end_date", PStr "20260220");
              ("version", PInt 1); ("extension", PStr "bsp")]).
Proof. split; reflexivity. Qed.

(** C3. A SPICE name with day-of-year 410 or month 13 should be refused
    with [InvalidSPICEFileError] (the test suite expects it).  The code
    checks nothing beyond the pattern and returns an object for both. *)
Theorem C3_out_of_range_dates_are_accepted :
  SPICEFilePath.init "imap_2025_032_2025_410_003.ah.bc"
  = Ok (SPICEFilePath.mk
          (mkPath "" ["imap_2025_032_2025_410_003.ah.bc"])
          [("mission", PStr "imap"); ("start_year", PStr "2025");
           ("start_doy", PStr "032"); ("end_year", PStr "2025");
           ("end_doy", PStr "410"); ("version", PInt 3);
           ("type", PStr "attitude_history")])
  /\ SPICEFilePath.init "imap_90days_20251320_20260220_v01.bsp"
     = Ok (SPICEFilePath.mk
             (mkPath "" ["imap_90days_20251320_20260220_v01.bsp"])
             [("mission", PStr "imap"); ("type", PStr "ephemeris_90days");
              ("start_date", PStr "20251320"); ("end_date", PStr "20260220");
              ("version", PInt 1); ("extension", PStr "bsp")]).
Proof. split; reflexivity. Qed.

(** C4. The years and days of year of a parsed SPICE name should be
    integers (the test suite compares them with 2025, 32 and 34).  Only
    the version is converted: the other fields stay the captured text. *)
Theorem C4_year_and_doy_stay_text :
  exists md,
    SPICEFilePath.extract_filename_components "imap_2025_032_2025_034_003.ah.bc"
    = Ok (Some md)
    /\ lookup "version" md = Some (PInt 3)
    /\ lookup "start_year" md = Some (PStr "2025")
    /\ lookup "start_doy" md = Some (PStr "032")
    /\ lookup "end_year" md = Some (PStr "2025")
    /\ lookup "end_doy" md = Some (PStr "034").
Proof. eexists. repeat split; reflexivity. Qed.



(* ================================================================== *)
(** ** The dispatcher *)

(** C1. When all three conventions refuse a name the dispatcher should
    raise its combined error.  For an ephemeris name without a version the
    SPICE attempt ends in a [TypeError], which no [except] clause names:
    the Science and Ancillary conventions, which both refuse the name, are
    never tried. *)
Theorem C1_type_error_escapes_the_dispatcher (cfg : Config) :
  SPICEFilePath.init "imap_recon_20251120_20260220.bsp" = Raise TypeError
  /\ (exists msg,
        ScienceFilePath.init cfg "imap_recon_20251120_20260220.bsp"
        = Raise (InvalidScienceFileError msg))
  /\ (exists msg,
        AncillaryFilePath.init cfg "imap_recon_20251120_20260220.bsp"
        = Raise (InvalidAncillaryFileError msg))
  /\ generate_imap_file_path cfg "imap_recon_20251120_20260220.bsp"
     = Raise TypeError.
Proof.
  split; [reflexivity|].
  split; [eexists; reflexivity|].
  split; [eexists; reflexivity|].
  reflexivity.
Qed.

(* ================================================================== *)
(** ** Anchoring *)

(** C9. The Science and Ancillary patterns end in [$] and should refuse
    any name with text after the extension.  [$] also matches just before
    a final newline, so a valid name followed by a newline is accepted by
    both ([is_valid_version] and [is_valid_repointing] use [fullmatch],
    which would refuse it).  The SPICE patterns are open at the end: a
    name with text after a matching prefix constructs. *)
Theorem C9_trailing_newline_is_accepted (cfg : Config) :
  str_in "mag" (VALID_INSTRUMENTS cfg) = true ->
  str_in "l1a" (VALID_DATALEVELS cfg) = true ->
  str_in "cdf" (VALID_FILE_EXTENSION cfg) = true ->
  str_in "cdf" (VALID_ANCILLARY_FILE_EXTENSION cfg) = true ->
  (exists p,
      ScienceFilePath.init cfg (with_newline "imap_mag_l1a_burst_20210101_v001.cdf")
      = Ok p /\ ScienceFilePath.extension p = Some "cdf")
  /\ (exists p,
         AncillaryFilePath.init cfg (with_newline "imap_mag_test_20210101_v001.cdf")
         = Ok p /\ AncillaryFilePath.extension p = Some "cdf")
  /\ (exists p,
         SPICEFilePath.init "imap_0000_000_0000_000_01.ap.bc.backup" = Ok p).
Proof.
  intros Hi Hl He Ha.
  split; [|split].
  - eexists. split.
    + unfold ScienceFilePath.init. simpl.
      unfold ScienceFilePath.validate_filename. simpl.
      rewrite Hi, Hl, He. simpl. reflexivity.
    + reflexivity.
  - eexists. split.
    + unfold AncillaryFilePath.init. simpl.
      unfold AncillaryFilePath.validate_filename. simpl.
      rewrite Hi, Ha. simpl. reflexivity.
    + reflexivity.
  - eexists. reflexivity.
Qed.

Lemma C9_trailing_newline_is_accepted_witness :
  (exists p,
      ScienceFilePath.init example_config
        (with_newline "imap_mag_l1a_burst_20210101_v001.cdf")
      = Ok p /\ ScienceFilePath.extension p = Some "cdf")
  /\ (exists p,
         AncillaryFilePath.init example_config
           (with_newline "imap_mag_test_20210101_v001.cdf")
         = Ok p /\ AncillaryFilePath.extension p = Some "cdf")
  /\ (exists p,
         SPICEFilePath.init "imap_0000_000_0000_000_01.ap.bc.backup" = Ok p).
Proof.
  apply (C9_trailing_newline_is_accepted example_config); reflexivity.
Defined.

(* ================================================================== *)
(** ** Science names *)

(** Whatever the science pattern matches has the shape of the naming
    convention, up to a final newline, and the groups are its fields. *)
Lemma science_match_inv name m :
  re_match ScienceFilePath.pattern name = Some m ->
  exists i dl desc date rp v3 ext tail,
    name = science_name i dl desc date rp v3 ext tail
    /\ token i /\ token dl /\ token desc
    /\ digits_of_length 8 date
    /\ (forall r, rp = Some r -> digits_of_length 5 r)
    /\ digits_of_length 3 v3
    /\ (ext = "cdf" \/ ext = "pkts")
    /\ (tail = "" \/ tail = String newline "")
    /\ group m "mission" = Some "imap"
    /\ group m "instrument" = Some i
    /\ group m "data_level" = Some dl
    /\ group m "descriptor" = Some desc
    /\ group m "start_date" = Some date
    /\ group m "repointing" = rp
    /\ group m "version" = Some ("v" ++ v3)
    /\ group m "extension" = Some ext.
Proof.
  intros H. apply re_match_sound in H as (u & c' & Hs & HS & Hm).
  unfold ScienceFilePath.pattern, exactly, plus, star, any in HS.
  sem_inv HS.
  all: match goal with
       | H : at_end ?t = true |- _ =>
         assert (Htail : t = "" \/ t = String newline "")
           by (destruct t as [|a [|b t']]; simpl in H;
               [auto | apply Ascii.eqb_eq in H; subst; auto | discriminate])
       end.
  all: repeat match goal with
              | H : forall h, Some ?n = Some h -> _ |- _ =>
                specialize (H n eq_refl)
              end.
  all: match goal with
       | Hm : _ = mkMatch _ [(_, ?e); (_, _ ++ ?v3); (_, ?r); (_, ?date);
                             (_, ?desc); (_, ?dl); (_, ?i); _] _ |- _ =>
         exists i, dl, desc, date, (Some r), v3, e, (m_rest m)
       | Hm : _ = mkMatch _ [(_, ?e); (_, _ ++ ?v3); (_, ?date);
                             (_, ?desc); (_, ?dl); (_, ?i); _] _ |- _ =>
         exists i, dl, desc, date, None, v3, e, (m_rest m)
       end.
  all: rewrite Hm; unfold group; cbn [m_caps m_rest lookup String.eqb Ascii.eqb Bool.eqb].
  all: assert (Hnonempty : forall t, 1 <= String.length t -> t <> "")
    by (intros t Ht ->; simpl in Ht; lia).
  all: unfold token, digits_of_length, no_underscore, all_digits.
  all: repeat split; auto; try lia.
  all: try (unfold science_name, repoint_text;
            repeat (rewrite ?append_assoc; simpl); reflexivity).
  all: try discriminate.
  all: match goal with
       | H : Some _ = Some _ |- _ => injection H as <-; (lia || assumption)
       end.
Qed.

(** ** Conversions and dates never fail in an unexpected way *)

Lemma py_int_some (s : string) :
  (exists v, py_int (Some s) = Ok v) \/ py_int (Some s) = Raise int_literal_error.
Proof.
  unfold py_int.
  destruct (rstrip (lstrip s)) as [|c t]; simpl.
  - auto.
  - destruct (Ascii.eqb c "-"); [|destruct (Ascii.eqb c "+")];
      match goal with
      | |- context [int_body ?a ?b ?c] => destruct (int_body a b c); eauto
      end.
Qed.

Lemma strptime_groups s m :
  re_match strptime_Ymd_pattern s = Some m ->
  exists y mo d,
    group m "Y" = Some y /\ group m "m" = Some mo /\ group m "d" = Some d.
Proof.
  intros H. apply re_match_sound in H as (u & c' & Hs & HS & Hm).
  unfold strptime_Ymd_pattern in HS. sem_inv HS.
  all: rewrite Hm; unfold group; simpl; eauto 7.
Qed.

Lemma is_valid_date_total (s : string) :
  exists b, is_valid_date (Some s) = Ok b.
Proof.
  unfold is_valid_date, strptime_Ymd.
  destruct (re_match strptime_Ymd_pattern s) as [m|] eqn:E; [|eauto].
  destruct (strptime_groups _ _ E) as (y & mo & d & -> & -> & ->).
  destruct (negb (match_all m)); [eauto|].
  destruct (py_int_some y) as [[v ->] | ->]; cbn [bind]; [|simpl; eauto].
  destruct (py_int_some mo) as [[v' ->] | ->]; cbn [bind]; [|simpl; eauto].
  destruct (py_int_some d) as [[v'' ->] | ->]; cbn [bind]; [|simpl; eauto].
  destruct (date_ok v v' v''); eauto.
Qed.

(** ** Science validation *)

Lemma science_validate_total cfg self d v :
  ScienceFilePath.start_date self = Some d ->
  ScienceFilePath.version self = Some v ->
  exists msg, ScienceFilePath.validate_filename cfg self = Ok msg.
Proof.
  intros Hd Hv. unfold ScienceFilePath.validate_filename.
  rewrite Hd, Hv. destruct (is_valid_date_total d) as [b ->].
  simpl. eauto.
Qed.

(** The extension check of [validate_filename] decides alone whether the
    message can be empty. *)
Lemma science_validate_extension cfg self msg :
  ScienceFilePath.validate_filename cfg self = Ok msg ->
  negb (ScienceFilePath.opt_in (ScienceFilePath.extension self)
          (VALID_FILE_EXTENSION cfg))
  || (ScienceFilePath.opt_eqb (ScienceFilePath.data_level self) "l0"
      && negb (ScienceFilePath.opt_eqb (ScienceFilePath.extension self) "pkts")
      || negb (ScienceFilePath.opt_eqb (ScienceFilePath.data_level self) "l0")
         && negb (ScienceFilePath.opt_eqb (ScienceFilePath.extension self) "cdf"))
  = true ->
  msg <> "".
Proof.
  unfold ScienceFilePath.validate_filename. intros H Hc.
  destruct (is_valid_date _) as [b|e]; simpl in H; [|discriminate].
  destruct (ScienceFilePath.matches _ _) as [b'|e]; simpl in H; [|discriminate].
  rewrite Hc in H. injection H as <-.
  intros Habs. apply append_eq_nil in Habs as [_ Habs]. discriminate.
Qed.

Lemma opt_eqb_eq x s : ScienceFilePath.opt_eqb x s = true <-> x = Some s.
Proof.
  destruct x as [v|]; simpl.
  - rewrite String.eqb_eq. split; congruence.
  - split; discriminate.
Qed.

Lemma opt_eqb_neq x s : ScienceFilePath.opt_eqb x s = false <-> x <> Some s.
Proof.
  rewrite <- opt_eqb_eq. destruct (ScienceFilePath.opt_eqb x s); split; congruence.
Qed.

Lemma science_init_inv cfg file_name p :
  ScienceFilePath.init cfg file_name = Ok p ->
  exists comps,
    ScienceFilePath.extract_filename_components cfg (Path_of_str file_name)
    = Ok comps
    /\ ScienceFilePath.validate_filename cfg p = Ok ""
    /\ p = ScienceFilePath.mk (Path_of_str file_name) (DATA_DIR cfg)
             (ScienceFilePath.c_mission comps)
             (ScienceFilePath.c_instrument comps)
             (ScienceFilePath.c_data_level comps)
             (ScienceFilePath.c_descriptor comps)
             (ScienceFilePath.c_start_date comps)
             (ScienceFilePath.c_repointing comps)
             (ScienceFilePath.c_version comps)
             (ScienceFilePath.c_extension comps).
Proof.
  unfold ScienceFilePath.init. intros H.
  destruct (ScienceFilePath.extract_filename_components cfg (Path_of_str file_name))
    as [comps|e]; [|destruct e; discriminate].
  simpl in H.
  match type of H with
  | bind (ScienceFilePath.validate_filename cfg ?self) _ = _ =>
    destruct (ScienceFilePath.validate_filename cfg self) as [msg|e] eqn:Ev;
      simpl in H; [|discriminate]
  end.
  destruct (String.eqb msg "") eqn:Em; simpl in H; [|discriminate].
  apply String.eqb_eq in Em. subst msg. injection H as <-.
  eauto.
Qed.

(** C5. A science file that is accepted has extension pkts exactly when
    its data level is l0 and cdf exactly when it is not; a name the
    pattern matches with any other pairing is refused with
    [InvalidScienceFileError]. *)
Theorem C5_science_extension_follows_data_level (cfg : Config) (file_name : string) :
  (forall p,
      ScienceFilePath.init cfg file_name = Ok p ->
      (ScienceFilePath.extension p = Some "pkts"
       <-> ScienceFilePath.data_level p = Some "l0")
      /\ (ScienceFilePath.extension p = Some "cdf"
          <-> ScienceFilePath.data_level p <> Some "l0"))
  /\ (forall comps,
         ScienceFilePath.extract_filename_components cfg (Path_of_str file_name)
         = Ok comps ->
         ~ (ScienceFilePath.c_extension comps = Some "pkts"
            /\ ScienceFilePath.c_data_level comps = Some "l0") ->
         ~ (ScienceFilePath.c_extension comps = Some "cdf"
            /\ ScienceFilePath.c_data_level comps <> Some "l0") ->
         exists msg,
           ScienceFilePath.init cfg file_name = Raise (InvalidScienceFileError msg)).
Proof.
  split.
  - intros p H. apply science_init_inv in H as (comps & _ & Hv & _).
    destruct (negb (ScienceFilePath.opt_in (ScienceFilePath.extension p)
                      (VALID_FILE_EXTENSION cfg))
              || (ScienceFilePath.opt_eqb (ScienceFilePath.data_level p) "l0"
                  && negb (ScienceFilePath.opt_eqb (ScienceFilePath.extension p) "pkts")
                  || negb (ScienceFilePath.opt_eqb (ScienceFilePath.data_level p) "l0")
                     && negb (ScienceFilePath.opt_eqb (ScienceFilePath.extension p) "cdf")))
      eqn:Hc.
    + exfalso. eapply science_validate_extension; eauto.
    + apply orb_false_iff in Hc as [_ Hc].
      apply orb_false_iff in Hc as [H1 H2].
      destruct (ScienceFilePath.opt_eqb (ScienceFilePath.data_level p) "l0") eqn:Edl;
        simpl in H1, H2.
      * apply negb_false_iff in H1.
        apply opt_eqb_eq in Edl, H1. rewrite Edl, H1.
        split; split; congruence.
      * apply negb_false_iff in H2.
        apply opt_eqb_neq in Edl. apply opt_eqb_eq in H2. rewrite H2.
        split; split; auto; try congruence.
  - intros comps He Hp Hc. unfold ScienceFilePath.init. rewrite He. simpl.
    unfold ScienceFilePath.extract_filename_components in He.
    destruct (re_match ScienceFilePath.pattern _) as [m|] eqn:Em; [|discriminate].
    destruct (science_match_inv _ _ Em)
      as (i & dl & desc & date & rp & v3 & ext & tail & _ & _ & _ & _ & _ & _ & _
          & Hext & _ & Gm & Gi & Gdl & Gdesc & Gdate & Grp & Gv & Ge).
    rewrite Gm, Gi, Gdl, Gdesc, Gdate, Gv, Ge in He.
    destruct (if truthy (of_group (group m "repointing")) then _ else _)
      as [rpv|e]; simpl in He; [|discriminate].
    injection He as <-. simpl in Hp, Hc |- *.
    match goal with
    | |- context [ScienceFilePath.validate_filename cfg ?self] =>
      destruct (science_validate_total cfg self date ("v" ++ v3) eq_refl eq_refl)
        as [msg Hmsg];
        pose proof (science_validate_extension cfg self msg Hmsg) as Hne;
        rewrite Hmsg
    end.
    simpl in Hne |- *.
    assert (Hmsg' : msg <> "").
    { apply Hne. destruct (String.eqb dl "l0") eqn:Edl.
      - apply String.eqb_eq in Edl. subst dl.
        destruct Hext as [-> | ->]; simpl.
        + apply orb_true_r.
        + exfalso. apply Hp. auto.
      - apply String.eqb_neq in Edl.
        destruct Hext as [-> | ->]; simpl.
        + exfalso. apply Hc. split; congruence.
        + apply orb_true_r. }
    apply String.eqb_neq in Hmsg'. rewrite Hmsg'. simpl. eauto.
Qed.

Lemma C5_science_extension_follows_data_level_witness :
  (let p := ScienceFilePath.mk
              (mkPath "" ["imap_mag_l0_raw_20210101_v001.pkts"])
              (Some (mkPath "/" ["data"]))
              (Some "imap") (Some "mag") (Some "l0") (Some "raw")
              (Some "20210101") PNone (Some "v001") (Some "pkts") in
   (ScienceFilePath.extension p = Some "pkts"
    <-> ScienceFilePath.data_level p = Some "l0")
   /\ (ScienceFilePath.extension p = Some "cdf"
       <-> ScienceFilePath.data_level p <> Some "l0"))
  /\ (exists msg,
         ScienceFilePath.init example_config "imap_mag_l1a_burst_20210101_v001.pkts"
         = Raise (InvalidScienceFileError msg)).
Proof.
  split.
  - apply (proj1 (C5_science_extension_follows_data_level
                    example_config "imap_mag_l0_raw_20210101_v001.pkts")).
    reflexivity.
  - apply (proj2 (C5_science_extension_follows_data_level
                    example_config "imap_mag_l1a_burst_20210101_v001.pkts")
                 (ScienceFilePath.mkComponents
                    (Some "imap") (Some "mag") (Some "l1a") (Some "burst")
                    (Some "20210101") PNone (Some "v001") (Some "pkts"))).
    + reflexivity.
    + simpl. intros [_ H]. discriminate.
    + simpl. intros [H _]. discriminate.
Defined.

(* ================================================================== *)
(** ** Paths of plain names *)

Lemma split_on_plain (s : string) :
  plain_name s = true -> split_on "/" s = [s].
Proof.
  unfold plain_name. induction s as [|c s IH]; simpl; [reflexivity|].
  intros H. apply andb_true_iff in H as [Hc Hs].
  apply negb_true_iff in Hc. rewrite Hc, (IH Hs). reflexivity.
Qed.

Lemma split_on_append (a b : string) :
  plain_name a = true ->
  split_on "/" (a ++ String "/" b) = a :: split_on "/" b.
Proof.
  unfold plain_name. induction a as [|c a IH]; simpl; [reflexivity|].
  intros H. apply andb_true_iff in H as [Hc Hs].
  apply negb_true_iff in Hc. rewrite Hc, (IH Hs). reflexivity.
Qed.

Lemma splitroot_plain (s : string) :
  starts_with_slash s = false -> splitroot s = ("", s).
Proof. unfold splitroot. intros ->. reflexivity. Qed.

Lemma plain_no_slash (s : string) :
  plain_name s = true -> starts_with_slash s = false.
Proof.
  destruct s as [|c s]; simpl; [reflexivity|].
  unfold plain_name. simpl. intros H.
  apply andb_true_iff in H as [Hc _]. now apply negb_true_iff in Hc.
Qed.

Lemma component_filter (s : string) :
  component s -> negb (String.eqb s "") && negb (String.eqb s ".") = true.
Proof.
  intros (_ & H1 & H2). apply String.eqb_neq in H1, H2.
  rewrite H1, H2. reflexivity.
Qed.

(** A plain name that is neither empty nor "." is a path of one component. *)
Lemma Path_of_component (s : string) :
  component s -> Path_of_str s = mkPath "" [s].
Proof.
  intros Hc. pose proof Hc as (Hp & _).
  unfold Path_of_str. rewrite (splitroot_plain _ (plain_no_slash _ Hp)).
  rewrite (split_on_plain _ Hp). simpl.
  rewrite (component_filter _ Hc). reflexivity.
Qed.

Lemma Path_name_plain (s : string) :
  plain_name s = true -> s <> "." -> Path_name (Path_of_str s) = s.
Proof.
  intros Hp Hd. destruct (String.eqb_spec s "") as [-> | Hne]; [reflexivity|].
  rewrite Path_of_component; [reflexivity | repeat split; assumption].
Qed.

Lemma Path_join_relative (a : Path) (ps : list string) :
  a // mkPath "" ps = mkPath (root a) (parts a ++ ps).
Proof. reflexivity. Qed.

(* ================================================================== *)
(** ** SPICE canonical paths *)

Lemma lookup_In {A} (k : string) (l : list (string * A)) (v : A) :
  lookup k l = Some v -> In (k, v) l.
Proof.
  induction l as [|[n w] l IH]; simpl; [discriminate|].
  destruct (String.eqb_spec k n) as [-> | _].
  - intros [= ->]. auto.
  - auto.
Qed.

Lemma transform_parts_at ts m key f :
  lookup key ts = Some f ->
  forall keys md v,
    SPICEFilePath.transform_parts (Some ts) m keys = Ok md ->
    lookup key md = Some v -> f (group m key) = Ok v.
Proof.
  intros Hts. induction keys as [|part keys IH]; intros md v H Hv; simpl in H.
  - injection H as <-. discriminate.
  - destruct (match lookup part ts with
              | Some g => g (group m part)
              | None => Ok (of_group (group m part))
              end) as [w|e] eqn:Ew; simpl in H; [|discriminate].
    destruct (SPICEFilePath.transform_parts (Some ts) m keys) as [vs|e];
      simpl in H; [|discriminate].
    injection H as <-. simpl in Hv.
    destruct (String.eqb_spec key part) as [<- | _].
    + rewrite Hts in Ew. congruence.
    + eapply IH; eauto.
Qed.

Lemma spice_init_inv file_name p :
  SPICEFilePath.init file_name = Ok p ->
  exists m,
    SPICEFilePath._matches_on_group SPICEFilePath.valid_spice_regexes
      (lower (Path_name (Path_of_str file_name))) = Some m
    /\ SPICEFilePath.transform_parts
         (Some [("type", SPICEFilePath.type_transform);
                ("version", SPICEFilePath.version_transform)])
         m (m_names m) = Ok (SPICEFilePath.spice_metadata p)
    /\ SPICEFilePath.filename p = Path_of_str file_name.
Proof.
  unfold SPICEFilePath.init, SPICEFilePath.extract_filename_components,
    SPICEFilePath._extract_parts.
  intros H.
  destruct (SPICEFilePath._matches_on_group _ _) as [m|]; [|discriminate].
  exists m.
  destruct (SPICEFilePath.transform_parts _ m (m_names m)) as [d|e];
    simpl in H; [|discriminate].
  injection H as <-. auto.
Qed.

(** Every semantic type the type table can produce has a directory. *)
Lemma spice_type_has_directory raw ty :
  lookup raw _SPICE_TYPE_MAPPING = Some ty ->
  exists subdir,
    lookup ty _SPICE_DIR_MAPPING = Some subdir
    /\ Path_of_str subdir = mkPath "" [subdir].
Proof.
  intros H. apply lookup_In in H. unfold _SPICE_TYPE_MAPPING in H.
  simpl in H.
  repeat (destruct H as [H | H];
          [injection H as <- <-; eexists; split; reflexivity|]).
  contradiction.
Qed.

Lemma spice_type_of_metadata file_name p ty :
  SPICEFilePath.init file_name = Ok p ->
  lookup "type" (SPICEFilePath.spice_metadata p) = Some (PStr ty) ->
  exists raw, lookup raw _SPICE_TYPE_MAPPING = Some ty.
Proof.
  intros Hi Hl. apply spice_init_inv in Hi as (m & _ & Ht & _).
  eapply transform_parts_at in Hl; [| | exact Ht]; [|reflexivity].
  unfold SPICEFilePath.type_transform in Hl.
  destruct (group m "type") as [raw|]; [|discriminate].
  exists raw. destruct (lookup raw _SPICE_TYPE_MAPPING); simpl in Hl; congruence.
Qed.

Lemma spice_init_component file_name p :
  plain_name file_name = true ->
  SPICEFilePath.init file_name = Ok p ->
  component file_name.
Proof.
  intros Hp Hi. repeat split; [assumption | |]; intros ->; discriminate.
Qed.

(** C7. The canonical path of a valid SPICE file is the data directory
    followed by "spice", the directory of its semantic type and the file
    name; the attitude-predict example lands in spice/ck, and naif0012.tls
    is a leap-second kernel of version 12. *)
Theorem C7_spice_canonical_path (cfg : Config) (d : Path) :
  DATA_DIR cfg = Some d ->
  (forall file_name p ty,
      plain_name file_name = true ->
      SPICEFilePath.init file_name = Ok p ->
      lookup "type" (SPICEFilePath.spice_metadata p) = Some (PStr ty) ->
      exists subdir,
        lookup ty _SPICE_DIR_MAPPING = Some subdir
        /\ SPICEFilePath.construct_path cfg p
           = Ok (mkPath (root d) (parts d ++ ["spice"; subdir; file_name])))
  /\ (exists p,
         SPICEFilePath.init "imap_0000_000_0000_000_01.ap.bc" = Ok p
         /\ SPICEFilePath.construct_path cfg p
            = Ok (mkPath (root d)
                         (parts d ++ ["spice"; "ck";
                                      "imap_0000_000_0000_000_01.ap.bc"])))
  /\ (exists p,
         SPICEFilePath.init "naif0012.tls" = Ok p
         /\ lookup "type" (SPICEFilePath.spice_metadata p)
            = Some (PStr "leapseconds")
         /\ lookup "version" (SPICEFilePath.spice_metadata p)
            = Some (PInt 12)).
Proof.
  intros Hd.
  assert (General :
            forall file_name p ty,
              plain_name file_name = true ->
              SPICEFilePath.init file_name = Ok p ->
              lookup "type" (SPICEFilePath.spice_metadata p) = Some (PStr ty) ->
              exists subdir,
                lookup ty _SPICE_DIR_MAPPING = Some subdir
                /\ SPICEFilePath.construct_path cfg p
                   = Ok (mkPath (root d) (parts d ++ ["spice"; subdir; file_name]))).
  { intros file_name p ty Hp Hi Hty.
    destruct (spice_type_of_metadata _ _ _ Hi Hty) as [raw Hraw].
    destruct (spice_type_has_directory _ _ Hraw) as (subdir & Hsub & Hpath).
    exists subdir. split; [assumption|].
    pose proof (Path_of_component _ (spice_init_component _ _ Hp Hi)) as Hname.
    apply spice_init_inv in Hi as (_ & _ & _ & Hf).
    unfold SPICEFilePath.construct_path.
    rewrite Hd, Hty. unfold SPICEFilePath.dir_of. rewrite Hsub. cbn [bind].
    rewrite Hf, Hname, Hpath.
    change (Path_of_str "spice") with (mkPath "" ["spice"]).
    rewrite !Path_join_relative. simpl.
    rewrite <- !List.app_assoc. reflexivity. }
  split; [exact General|]. split.
  - eexists. split; [reflexivity|].
    match goal with
    | |- SPICEFilePath.construct_path cfg ?p = _ =>
      destruct (General "imap_0000_000_0000_000_01.ap.bc" p "attitude_predict"
                        eq_refl eq_refl eq_refl) as (subdir & Hsub & Hpath)
    end.
    injection Hsub as <-. exact Hpath.
  - eexists. repeat split; reflexivity.
Qed.

Lemma C7_spice_canonical_path_witness :
  exists subdir,
    lookup "frames" _SPICE_DIR_MAPPING = Some subdir
    /\ SPICEFilePath.construct_path example_config
         (SPICEFilePath.mk (mkPath "" ["imap_001.tf"])
            [("mission", PStr "imap"); ("version", PInt 1);
             ("type", PStr "frames")])
       = Ok (mkPath "/" (["data"] ++ ["spice"; subdir; "imap_001.tf"])).
Proof.
  apply (proj1 (C7_spice_canonical_path example_config (mkPath "/" ["data"])
                  eq_refl) "imap_001.tf"); reflexivity.
Defined.

(* ================================================================== *)
(** ** Ancillary names and paths *)

Lemma re_match_names r s m : re_match r s = Some m -> m_names m = group_names r.
Proof.
  intros H. apply re_match_sound in H as (u & c' & _ & _ & ->). reflexivity.
Qed.

Lemma ancillary_match_inv name m :
  re_match AncillaryFilePath.pattern name = Some m ->
  exists i desc date ed v3 ext tail,
    name = ancillary_name i desc date ed v3 ext tail
    /\ token i /\ token desc
    /\ digits_of_length 8 date
    /\ (forall e, ed = Some e -> digits_of_length 8 e)
    /\ digits_of_length 3 v3
    /\ (ext = "cdf" \/ ext = "csv" \/ ext = "json")
    /\ (tail = "" \/ tail = String newline "")
    /\ group m "mission" = Some "imap"
    /\ group m "instrument" = Some i
    /\ group m "descriptor" = Some desc
    /\ group m "start_date" = Some date
    /\ group m "end_date" = ed
    /\ group m "version" = Some ("v" ++ v3)
    /\ group m "extension" = Some ext.
Proof.
  intros H. apply re_match_sound in H as (u & c' & Hs & HS & Hm).
  unfold AncillaryFilePath.pattern, exactly, plus, star, any in HS.
  sem_inv HS.
  all: match goal with
       | H : at_end ?t = true |- _ =>
         assert (Htail : t = "" \/ t = String newline "")
           by (destruct t as [|a [|b t']]; simpl in H;
               [auto | apply Ascii.eqb_eq in H; subst; auto | discriminate])
       end.
  all: repeat match goal with
              | H : forall h, Some ?n = Some h -> _ |- _ =>
                specialize (H n eq_refl)
              end.
  all: match goal with
       | Hm : _ = mkMatch _ [(_, ?e); (_, _ ++ ?v3); (_, ?ed); (_, ?date);
                             (_, ?desc); (_, ?i); _] _ |- _ =>
         exists i, desc, date, (Some ed), v3, e, (m_rest m)
       | Hm : _ = mkMatch _ [(_, ?e); (_, _ ++ ?v3); (_, ?date);
                             (_, ?desc); (_, ?i); _] _ |- _ =>
         exists i, desc, date, None, v3, e, (m_rest m)
       end.
  all: rewrite Hm; unfold group; cbn [m_caps m_rest lookup String.eqb Ascii.eqb Bool.eqb].
  all: assert (Hnonempty : forall t, 1 <= String.length t -> t <> "")
    by (intros t Ht ->; simpl in Ht; lia).
  all: unfold token, digits_of_length, no_underscore, all_digits.
  all: repeat split; auto; try lia.
  all: try (unfold ancillary_name, end_text;
            repeat (rewrite ?append_assoc; simpl); reflexivity).
  all: try discriminate.
  all: match goal with
       | H : Some _ = Some _ |- _ => injection H as <-; (lia || assumption)
       end.
Qed.

Lemma ancillary_init_inv cfg file_name p :
  AncillaryFilePath.init cfg file_name = Ok p ->
  exists m,
    re_match AncillaryFilePath.pattern (Path_name (Path_of_str file_name)) = Some m
    /\ AncillaryFilePath.validate_filename cfg p = Ok ""
    /\ p = AncillaryFilePath.mk (Path_of_str file_name) (DATA_DIR cfg)
             (group m "mission") (group m "instrument") (group m "descriptor")
             (group m "start_date") (group m "end_date") (group m "version")
             (group m "extension").
Proof.
  unfold AncillaryFilePath.init, AncillaryFilePath.extract_filename_components.
  intros H.
  destruct (re_match AncillaryFilePath.pattern _) as [m|] eqn:Em;
    [|discriminate].
  exists m. split; [reflexivity|].
  unfold groupdict in H. rewrite (re_match_names _ _ _ Em) in H.
  cbn [bind group_names AncillaryFilePath.pattern map app AncillaryFilePath.item
       lookup String.eqb Ascii.eqb Bool.eqb exactly plus lit] in H.
  match type of H with
  | bind (AncillaryFilePath.validate_filename cfg ?self) _ = _ =>
    destruct (AncillaryFilePath.validate_filename cfg self) as [msg|e] eqn:Ev;
      cbn [bind] in H; [|discriminate]
  end.
  destruct (String.eqb msg "") eqn:Emsg; simpl in H; [|discriminate].
  apply String.eqb_eq in Emsg. subst msg. injection H as <-. auto.
Qed.

(** An ancillary file that passes validation names a valid instrument. *)
Lemma ancillary_validate_instrument cfg self :
  AncillaryFilePath.validate_filename cfg self = Ok "" ->
  ScienceFilePath.opt_in (AncillaryFilePath.instrument self)
    (VALID_INSTRUMENTS cfg) = true.
Proof.
  unfold AncillaryFilePath.validate_filename. intros H.
  destruct (ScienceFilePath.opt_in (AncillaryFilePath.instrument self)
              (VALID_INSTRUMENTS cfg)); [reflexivity|].
  exfalso. cbn [negb] in H.
  destruct (is_valid_date (AncillaryFilePath.start_date self)) as [b|e];
    cbn [bind] in H; [|discriminate].
  destruct (truthy (of_group (AncillaryFilePath.end_date self))).
  - destruct (is_valid_date (AncillaryFilePath.end_date self)) as [b'|e];
      cbn [bind] in H; [|discriminate].
    injection H as H.
    repeat match type of H with
           | context [if ?c then _ else _] => destruct c
           end;
      repeat match goal with
             | H' : _ ++ _ = "" |- _ => apply append_eq_nil in H' as [? ?]
             end;
      discriminate.
  - injection H as H.
    repeat match type of H with
           | context [if ?c then _ else _] => destruct c
           end;
      repeat match goal with
             | H' : _ ++ _ = "" |- _ => apply append_eq_nil in H' as [? ?]
             end;
      discriminate.
Qed.

Lemma str_in_neq x y l : str_in x l = true -> str_in y l = false -> x <> y.
Proof. intros Hx Hy ->. congruence. Qed.

(** C8. The canonical path of a valid ancillary file is the data
    directory (when there is one) followed by the mission, "ancillary",
    the instrument and the file name: no component comes from a date. *)
Theorem C8_ancillary_canonical_path (cfg : Config) (file_name : string)
        (p : AncillaryFilePath.t) :
  plain_name file_name = true ->
  str_in "." (VALID_INSTRUMENTS cfg) = false ->
  AncillaryFilePath.init cfg file_name = Ok p ->
  exists instr,
    AncillaryFilePath.mission p = Some "imap"
    /\ AncillaryFilePath.instrument p = Some instr
    /\ AncillaryFilePath.construct_path p
       = match DATA_DIR cfg with
         | Some d =>
           mkPath (root d) (parts d ++ ["imap"; "ancillary"; instr; file_name])
         | None => mkPath "" ["imap"; "ancillary"; instr; file_name]
         end.
Proof.
  intros Hp Hdot Hi.
  apply ancillary_init_inv in Hi as (m & Hm & Hv & ->).
  assert (Hne : file_name <> ".") by (intros ->; discriminate).
  rewrite (Path_name_plain _ Hp Hne) in Hm.
  destruct (ancillary_match_inv _ _ Hm)
    as (i & desc & date & ed & v3 & ext & tail & Hname & [Hi1 Hi2] & _ & _ & _
        & _ & _ & _ & Gm & Gi & _).
  apply ancillary_validate_instrument in Hv. cbn in Hv.
  rewrite Gi in Hv. simpl in Hv.
  pose proof (str_in_neq _ _ _ Hv Hdot) as Hidot.
  exists i. rewrite Gm, Gi. cbn [AncillaryFilePath.mission AncillaryFilePath.instrument].
  split; [reflexivity|]. split; [reflexivity|].
  assert (Hcomp : component file_name).
  { repeat split; auto. intros ->. discriminate. }
  assert (Hpi : plain_name i = true).
  { unfold plain_name in *. rewrite Hname in Hp. unfold ancillary_name in Hp.
    rewrite !forall_chars_append in Hp.
    repeat (apply andb_true_iff in Hp as [? Hp]). assumption. }
  unfold AncillaryFilePath.construct_path.
  cbn [AncillaryFilePath.mission AncillaryFilePath.instrument
       AncillaryFilePath.filename AncillaryFilePath.data_dir fmt].
  rewrite (Path_of_component _ Hcomp).
  assert (Hpath :
            Path_of_str ("imap" ++ "/ancillary/" ++ i ++ "/"
                         ++ Path_str (mkPath "" [file_name]))
            = mkPath "" ["imap"; "ancillary"; i; file_name]).
  { unfold Path_of_str, Path_str. cbn [root parts join].
    rewrite splitroot_plain by reflexivity.
    change ("imap" ++ "/ancillary/" ++ i ++ "/" ++ "" ++ file_name)
      with ("imap" ++ String "/" ("ancillary" ++ String "/" (i ++ String "/" file_name))).
    rewrite split_on_append by reflexivity.
    rewrite split_on_append by reflexivity.
    rewrite (split_on_append _ _ Hpi).
    rewrite (split_on_plain _ (proj1 Hcomp)).
    cbn [filter String.eqb Ascii.eqb Bool.eqb negb andb].
    rewrite (component_filter i) by (repeat split; assumption).
    rewrite (component_filter _ Hcomp). reflexivity. }
  rewrite Hpath. destruct (DATA_DIR cfg) as [d|]; reflexivity.
Qed.

Lemma C8_ancillary_canonical_path_witness :
  let p := AncillaryFilePath.mk
             (mkPath "" ["imap_mag_test_20210101_20210102_v001.cdf"])
             (Some (mkPath "/" ["data"]))
             (Some "imap") (Some "mag") (Some "test") (Some "20210101")
             (Some "20210102") (Some "v001") (Some "cdf") in
  AncillaryFilePath.init example_config "imap_mag_test_20210101_20210102_v001.cdf"
  = Ok p
  /\ exists instr,
      AncillaryFilePath.mission p = Some "imap"
      /\ AncillaryFilePath.instrument p = Some instr
      /\ AncillaryFilePath.construct_path p
         = mkPath "/" (["data"] ++ ["imap"; "ancillary"; instr;
                                    "imap_mag_test_20210101_20210102_v001.cdf"]).
Proof.
  intros p. split; [reflexivity|].
  apply (C8_ancillary_canonical_path example_config
           "imap_mag_test_20210101_20210102_v001.cdf" p); reflexivity.
Defined.

(* ================================================================== *)
(** ** An ephemeris name without a version *)

Lemma digit_not_underscore c :
  in_class CDigit c = true -> in_class (CNot "_") c = true.
Proof.
  destruct c as [[] [] [] [] [] [] [] []]; vm_compute; intros H;
    (reflexivity || discriminate).
Qed.

Lemma alnum_dash_not_underscore c :
  in_class alnum_dash c = true -> in_class (CNot "_") c = true.
Proof.
  destruct c as [[] [] [] [] [] [] [] []]; vm_compute; intros H;
    (reflexivity || discriminate).
Qed.

Lemma attitude_prefix name m :
  re_match SPICEFilePath.attitude_file_pattern name = Some m ->
  exists y d rest,
    name = "imap_" ++ y ++ "_" ++ d ++ "_" ++ rest
    /\ digits_of_length 4 y /\ digits_of_length 3 d.
Proof.
  intros H. apply re_match_sound in H as (u & c' & Hs & HS & Hm).
  unfold SPICEFilePath.attitude_file_pattern, exactly, plus, star, any in HS.
  sem_inv HS.
  all: repeat match goal with
              | H : forall h, Some ?n = Some h -> _ |- _ =>
                specialize (H n eq_refl)
              end.
  all: match goal with
       | Hm : _ = mkMatch _ [_; _; _; _; (_, ?d); (_, ?y); _] _ |- _ =>
         exists y, d
       end.
  all: eexists; split;
    [repeat (rewrite ?append_assoc; simpl); reflexivity|].
  all: unfold digits_of_length, all_digits; repeat split; auto; lia.
Qed.

Lemma repoint_prefix name m :
  re_match SPICEFilePath.repoint_file_pattern name = Some m ->
  exists y d rest,
    name = "imap_" ++ y ++ "_" ++ d ++ "_" ++ rest
    /\ digits_of_length 4 y /\ digits_of_length 3 d.
Proof.
  intros H. apply re_match_sound in H as (u & c' & Hs & HS & Hm).
  unfold SPICEFilePath.repoint_file_pattern, exactly, plus, star, any in HS.
  sem_inv HS.
  all: repeat match goal with
              | H : forall h, Some ?n = Some h -> _ |- _ =>
                specialize (H n eq_refl)
              end.
  all: match goal with
       | Hm : _ = mkMatch _ [_; _; (_, ?d); (_, ?y); _] _ |- _ =>
         exists y, d
       end.
  all: eexists; split;
    [repeat (rewrite ?append_assoc; simpl); reflexivity|].
  all: unfold digits_of_length, all_digits; repeat split; auto; lia.
Qed.

Lemma ephemeris_prefix name m :
  re_match SPICEFilePath.spacecraft_ephemeris_file_pattern name = Some m ->
  exists t d1 rest,
    name = "imap_" ++ t ++ "_" ++ d1 ++ rest
    /\ forall_chars (in_class alnum_dash) t = true
    /\ digits_of_length 8 d1.
Proof.
  intros H. apply re_match_sound in H as (u & c' & Hs & HS & Hm).
  unfold SPICEFilePath.spacecraft_ephemeris_file_pattern, exactly, plus, star,
    any in HS.
  sem_inv HS.
  all: repeat match goal with
              | H : forall h, Some ?n = Some h -> _ |- _ =>
                specialize (H n eq_refl)
              end.
  all: match goal with
       | Hm : _ = mkMatch _ [_; _; (_, ?d1); (_, ?t); _] _ |- _ =>
         exists t, d1
       | Hm : _ = mkMatch _ [_; _; _; (_, ?d1); (_, ?t); _] _ |- _ =>
         exists t, d1
       end.
  all: eexists; split;
    [repeat (rewrite ?append_assoc; simpl); reflexivity|].
  all: unfold digits_of_length, all_digits; repeat split; auto; lia.
Qed.

(** A year and a three-digit day of year cannot be read as a type token
    and an eight-digit date. *)
Lemma doy_prefix_is_not_ephemeris y d rest t d1 rest' :
  digits_of_length 4 y -> digits_of_length 3 d ->
  forall_chars (in_class alnum_dash) t = true -> digits_of_length 8 d1 ->
  "imap_" ++ y ++ "_" ++ d ++ "_" ++ rest = "imap_" ++ t ++ "_" ++ d1 ++ rest' ->
  False.
Proof.
  intros [_ Hy] [Hd _] Ht [Hl1 Hd1] H.
  simpl in H. injection H as H.
  apply append_sep_inj in H as [_ H].
  - destruct d as [|a1 [|a2 [|a3 [|a4 d]]]]; simpl in Hd; try discriminate.
    destruct d1 as [|b1 [|b2 [|b3 [|b4 d1]]]]; simpl in Hl1; try discriminate.
    simpl in H. injection H as _ _ _ H _.
    unfold all_digits in Hd1. simpl in Hd1. rewrite <- H in Hd1.
    repeat (apply andb_true_iff in Hd1 as [? Hd1]). discriminate.
  - eapply forall_chars_impl; [apply digit_not_underscore | exact Hy].
  - eapply forall_chars_impl; [apply alnum_dash_not_underscore | exact Ht].
Qed.

Lemma ephemeris_is_first_match name m :
  re_match SPICEFilePath.spacecraft_ephemeris_file_pattern name = Some m ->
  SPICEFilePath._matches_on_group SPICEFilePath.valid_spice_regexes name = Some m.
Proof.
  intros H. destruct (ephemeris_prefix _ _ H) as (t & d1 & rest' & Hn & Ht & Hd1).
  unfold SPICEFilePath.valid_spice_regexes. cbn [SPICEFilePath._matches_on_group].
  destruct (re_match SPICEFilePath.attitude_file_pattern name) as [m1|] eqn:E1.
  { exfalso. destruct (attitude_prefix _ _ E1) as (y & d & rest & Hn' & Hy & Hd).
    rewrite Hn in Hn'. symmetry in Hn'.
    eapply doy_prefix_is_not_ephemeris; eauto. }
  destruct (re_match SPICEFilePath.repoint_file_pattern name) as [m2|] eqn:E2.
  { exfalso. destruct (repoint_prefix _ _ E2) as (y & d & rest & Hn' & Hy & Hd).
    rewrite Hn in Hn'. symmetry in Hn'.
    eapply doy_prefix_is_not_ephemeris; eauto. }
  rewrite H. reflexivity.
Qed.

(** C10. A name the ephemeris pattern matches without its version part
    makes [SPICEFilePath] raise [TypeError] (the conversion of the missing
    version), not [InvalidSPICEFileError], and the dispatcher lets the
    [TypeError] through without trying the other conventions. *)
Theorem C10_missing_version_raises_type_error (cfg : Config)
        (file_name : string) (m : Match) :
  re_match SPICEFilePath.spacecraft_ephemeris_file_pattern
    (lower (Path_name (Path_of_str file_name))) = Some m ->
  group m "version" = None ->
  SPICEFilePath.init file_name = Raise TypeError
  /\ generate_imap_file_path cfg file_name = Raise TypeError.
Proof.
  intros Hm Hv.
  assert (Hi : SPICEFilePath.init file_name = Raise TypeError).
  { unfold SPICEFilePath.init, SPICEFilePath.extract_filename_components,
      SPICEFilePath._extract_parts.
    rewrite (ephemeris_is_first_match _ _ Hm).
    rewrite (re_match_names _ _ _ Hm).
    cbn [group_names SPICEFilePath.spacecraft_ephemeris_file_pattern app
         exactly plus star lit SPICEFilePath.transform_parts lookup
         String.eqb Ascii.eqb Bool.eqb bind].
    rewrite Hv.
    unfold SPICEFilePath.type_transform.
    destruct (group m "type"); reflexivity. }
  split; [exact Hi|].
  unfold generate_imap_file_path. rewrite Hi. reflexivity.
Qed.

Lemma C10_missing_version_raises_type_error_witness :
  SPICEFilePath.init "imap_recon_20251120_20260220.bsp" = Raise TypeError
  /\ generate_imap_file_path example_config "imap_recon_20251120_20260220.bsp"
     = Raise TypeError.
Proof.
  apply (C10_missing_version_raises_type_error example_config
           "imap_recon_20251120_20260220.bsp"
           (mkMatch ["mission"; "type"; "start_date"; "end_date"; "version";
                     "extension"]
                    [("extension", "bsp"); ("end_date", "20260220");
                     ("start_date", "20251120"); ("type", "recon");
                     ("mission", "imap")]
                    "")); reflexivity.
Defined.

(* ================================================================== *)
(** ** Generated science names *)

Lemma repoint_ok_all :
  forallb (fun a => forallb (fun b => forallb (fun c => forallb (fun d =>
  forallb (fun e =>
    repoint_ok (10000 * a + 1000 * b + 100 * c + 10 * d + e))
  digits10) digits10) digits10) digits10) digits10 = true.
Proof. vm_compute. reflexivity. Qed.

Lemma In_digits10 (x : Z) : (0 <= x <= 9)%Z -> In x digits10.
Proof.
  intros H.
  assert (x = 0 \/ x = 1 \/ x = 2 \/ x = 3 \/ x = 4 \/ x = 5 \/ x = 6
          \/ x = 7 \/ x = 8 \/ x = 9)%Z as Hx by lia.
  unfold digits10. simpl. intuition.
Qed.

Lemma format_05d_round_trip (r : Z) :
  (0 <= r <= 99999)%Z ->
  digits_of_length 5 (format_05d r) /\ py_int (Some (format_05d r)) = Ok r.
Proof.
  intros Hr.
  pose proof (Z.div_mod r 10 ltac:(lia)) as E1.
  pose proof (Z.mod_pos_bound r 10 ltac:(lia)) as B1.
  pose proof (Z.div_mod (r / 10) 10 ltac:(lia)) as E2.
  pose proof (Z.mod_pos_bound (r / 10) 10 ltac:(lia)) as B2.
  pose proof (Z.div_mod (r / 10 / 10) 10 ltac:(lia)) as E3.
  pose proof (Z.mod_pos_bound (r / 10 / 10) 10 ltac:(lia)) as B3.
  pose proof (Z.div_mod (r / 10 / 10 / 10) 10 ltac:(lia)) as E4.
  pose proof (Z.mod_pos_bound (r / 10 / 10 / 10) 10 ltac:(lia)) as B4.
  set (e := (r mod 10)%Z) in *.
  set (d := (r / 10 mod 10)%Z) in *.
  set (c := (r / 10 / 10 mod 10)%Z) in *.
  set (b := (r / 10 / 10 / 10 mod 10)%Z) in *.
  set (a := (r / 10 / 10 / 10 / 10)%Z) in *.
  assert (Er : (r = 10000 * a + 1000 * b + 100 * c + 10 * d + e)%Z) by lia.
  assert (Ba : (0 <= a <= 9)%Z) by lia.
  pose proof repoint_ok_all as H.
  rewrite forallb_forall in H. specialize (H a (In_digits10 a Ba)).
  rewrite forallb_forall in H. specialize (H b (In_digits10 b ltac:(lia))).
  rewrite forallb_forall in H. specialize (H c (In_digits10 c ltac:(lia))).
  rewrite forallb_forall in H. specialize (H d (In_digits10 d ltac:(lia))).
  rewrite forallb_forall in H. specialize (H e (In_digits10 e ltac:(lia))).
  rewrite <- Er in H. unfold repoint_ok in H.
  apply andb_true_iff in H as [H H3]. apply andb_true_iff in H as [H1 H2].
  apply Nat.eqb_eq in H1.
  destruct (py_int (Some (format_05d r))) as [v|ex]; [|discriminate].
  apply Z.eqb_eq in H3. subst v.
  repeat split; assumption.
Qed.

(** Building a reading of a pattern, constructor by constructor. *)
Section SemIntro.
Variable subj : string.

Lemma Sem_seq r1 r2 u1 u2 rest c c1 c' :
  Sem subj r1 u1 (u2 ++ rest) c c1 -> Sem subj r2 u2 rest c1 c' ->
  Sem subj (Seq r1 r2) (u1 ++ u2) rest c c'.
Proof. intros H1 H2. simpl. eauto 7. Qed.

Lemma Sem_grp n r u rest c c1 :
  Sem subj r u rest c c1 -> Sem subj (Grp n r) u rest c ((n, u) :: c1).
Proof. intros H. simpl. eauto. Qed.

Lemma Sem_exactly n p u rest c :
  forall_chars (in_class p) u = true -> String.length u = n ->
  Sem subj (exactly n p) u rest c c.
Proof.
  intros H1 H2. unfold exactly. simpl. repeat split; auto; [lia|].
  intros h [= <-]. lia.
Qed.

Lemma Sem_plus p u rest c :
  forall_chars (in_class p) u = true -> u <> "" ->
  Sem subj (plus p) u rest c c.
Proof.
  intros H1 H2. unfold plus. simpl. repeat split; auto; [|discriminate].
  destruct u; [congruence | simpl; lia].
Qed.

Lemma Sem_literal t rest c : Sem subj (lit t) t rest c c.
Proof. apply Sem_lit. auto. Qed.

Lemma Sem_alt_l r1 r2 u rest c c' :
  Sem subj r1 u rest c c' -> Sem subj (Alt r1 r2) u rest c c'.
Proof. simpl. auto. Qed.

Lemma Sem_alt_r r1 r2 u rest c c' :
  Sem subj r2 u rest c c' -> Sem subj (Alt r1 r2) u rest c c'.
Proof. simpl. auto. Qed.

Lemma Sem_opt_some r u rest c c' :
  Sem subj r u rest c c' -> Sem subj (Opt r) u rest c c'.
Proof. simpl. auto. Qed.

Lemma Sem_opt_none r rest c : Sem subj (Opt r) "" rest c c.
Proof. simpl. auto. Qed.
End SemIntro.

Lemma digit_not_slash c :
  in_class CDigit c = true -> in_class (CNot "/") c = true.
Proof.
  destruct c as [[] [] [] [] [] [] [] []]; vm_compute; intros H;
    (reflexivity || discriminate).
Qed.

Lemma digits_plain s : all_digits s = true -> plain_name s = true.
Proof. apply forall_chars_impl. exact digit_not_slash. Qed.

Lemma digits_no_underscore s : all_digits s = true -> no_underscore s = true.
Proof. apply forall_chars_impl. exact digit_not_underscore. Qed.

(** The naming convention reads in one way only. *)
Lemma science_name_inj i dl desc date rp v3 ext tail
      i' dl' desc' date' rp' v3' ext' tail' :
  science_name i dl desc date rp v3 ext tail
  = science_name i' dl' desc' date' rp' v3' ext' tail' ->
  token i -> token dl -> token desc -> token i' -> token dl' -> token desc' ->
  digits_of_length 8 date -> digits_of_length 8 date' ->
  (forall r, rp = Some r -> digits_of_length 5 r) ->
  (forall r, rp' = Some r -> digits_of_length 5 r) ->
  digits_of_length 3 v3 -> digits_of_length 3 v3' ->
  (ext = "cdf" \/ ext = "pkts") -> (ext' = "cdf" \/ ext' = "pkts") ->
  i = i' /\ dl = dl' /\ desc = desc' /\ date = date' /\ rp = rp'
  /\ v3 = v3' /\ ext = ext' /\ tail = tail'.
Proof.
  unfold science_name.
  intros H [_ Hi] [_ Hdl] [_ Hdesc] [_ Hi'] [_ Hdl'] [_ Hdesc']
         [Ldate _] [Ldate' _] Hrp Hrp' [Lv _] [Lv' _] Hext Hext'.
  simpl in H. injection H as H.
  apply append_sep_inj in H as [<- H]; [|assumption..].
  apply append_sep_inj in H as [<- H]; [|assumption..].
  apply append_sep_inj in H as [<- H]; [|assumption..].
  apply append_inv_length in H as [<- H]; [|congruence].
  assert (Hrest :
            rp = rp' /\ "_v" ++ v3 ++ "." ++ ext ++ tail
                       = "_v" ++ v3' ++ "." ++ ext' ++ tail').
  { destruct rp as [r|], rp' as [r'|]; simpl in H.
    - injection H as H.
      destruct (Hrp r eq_refl) as [Lr _]. destruct (Hrp' r' eq_refl) as [Lr' _].
      apply append_inv_length in H as [<- H]; [auto | congruence].
    - discriminate.
    - discriminate.
    - auto. }
  destruct Hrest as [<- H']. simpl in H'. injection H' as H'.
  apply append_inv_length in H' as [<- H']; [|congruence].
  simpl in H'. injection H' as H'.
  destruct Hext as [-> | ->], Hext' as [-> | ->]; simpl in H';
    try discriminate; injection H' as <-; repeat split.
Qed.

Lemma science_name_plain i dl desc date rp v3 ext :
  plain_name i = true -> plain_name dl = true -> plain_name desc = true ->
  digits_of_length 8 date ->
  (forall r, rp = Some r -> digits_of_length 5 r) ->
  digits_of_length 3 v3 -> (ext = "cdf" \/ ext = "pkts") ->
  component (science_name i dl desc date rp v3 ext "").
Proof.
  intros Hi Hdl Hdesc [_ Hdate] Hrp [_ Hv] Hext.
  repeat split; try (unfold science_name; simpl; discriminate).
  assert (Hr : plain_name (repoint_text rp) = true).
  { destruct rp as [r|]; simpl; [|reflexivity].
    apply (digits_plain r). apply (Hrp r eq_refl). }
  pose proof (digits_plain _ Hdate) as Pdate.
  pose proof (digits_plain _ Hv) as Pv.
  unfold plain_name, science_name in *.
  rewrite !forall_chars_append.
  rewrite Hi, Hdl, Hdesc, Hr, Pdate, Pv.
  destruct Hext as [-> | ->]; reflexivity.
Qed.

(** A name of the convention's shape is matched. *)
Lemma science_name_matches i dl desc date rp v3 ext :
  token i -> token dl -> token desc ->
  digits_of_length 8 date ->
  (forall r, rp = Some r -> digits_of_length 5 r) ->
  digits_of_length 3 v3 -> (ext = "cdf" \/ ext = "pkts") ->
  exists m,
    re_match ScienceFilePath.pattern (science_name i dl desc date rp v3 ext "")
    = Some m.
Proof.
  intros [Ni Hi] [Ndl Hdl] [Ndesc Hdesc] [Ldate Hdate] Hrp [Lv Hv] Hext.
  assert (Hrp' : forall r, rp = Some r -> String.length r = 5 /\ all_digits r = true)
    by exact Hrp.
  clear Hrp. destruct rp as [r|]; [destruct (Hrp' r eq_refl) as [Lr Hr]|];
    clear Hrp'; destruct Hext as [-> | ->].
  all: match goal with
       | |- context [science_name ?a ?b ?c ?d ?e ?f ?g ""] =>
         set (name := science_name a b c d e f g "")
       end.
  all: match goal with
       | name := science_name _ _ _ _ ?rp _ ?ext "" |- _ =>
         assert (Hshape :
                   name = ("" ++ "imap" ++ "_" ++ i ++ "_" ++ dl ++ "_" ++ desc
                           ++ "_" ++ date ++ repoint_text rp ++ "_"
                           ++ ("v" ++ v3) ++ "." ++ ext ++ "") ++ "")
           by (unfold name, science_name; rewrite !append_nil_r; reflexivity)
       end.
  all: rewrite Hshape; eapply re_match_complete;
    unfold ScienceFilePath.pattern.
  all: eapply Sem_seq; [simpl; repeat split|].
  all: eapply Sem_seq; [apply Sem_grp, Sem_literal|].
  all: eapply Sem_seq; [apply Sem_literal|].
  all: eapply Sem_seq; [apply Sem_grp, Sem_plus; assumption|].
  all: eapply Sem_seq; [apply Sem_literal|].
  all: eapply Sem_seq; [apply Sem_grp, Sem_plus; assumption|].
  all: eapply Sem_seq; [apply Sem_literal|].
  all: eapply Sem_seq; [apply Sem_grp, Sem_plus; assumption|].
  all: eapply Sem_seq; [apply Sem_literal|].
  all: eapply Sem_seq; [apply Sem_grp, Sem_exactly; assumption|].
  1, 2: change (repoint_text (Some r)) with ("-repoint" ++ r).
  1, 2: eapply Sem_seq;
    [apply Sem_opt_some; eapply Sem_seq;
     [apply Sem_literal | apply Sem_grp, Sem_exactly; assumption]|].
  3, 4: eapply Sem_seq; [apply Sem_opt_none|].
  all: eapply Sem_seq; [apply Sem_literal|].
  all: eapply Sem_seq;
    [apply Sem_grp; eapply Sem_seq;
     [apply Sem_literal | apply Sem_exactly; assumption]|].
  all: eapply Sem_seq; [apply Sem_literal|].
  1, 3: eapply Sem_seq; [apply Sem_grp, Sem_alt_l, Sem_literal|].
  3, 4: eapply Sem_seq; [apply Sem_grp, Sem_alt_r, Sem_literal|].
  all: simpl; auto.
Qed.

Lemma version_pattern_matches v3 :
  digits_of_length 3 v3 ->
  ScienceFilePath.matches ScienceFilePath.version_pattern (Some ("v" ++ v3))
  = Ok true.
Proof.
  intros [Lv Hv]. unfold ScienceFilePath.matches.
  assert (H : exists m,
             re_match ScienceFilePath.version_pattern
               (("" ++ "v" ++ v3 ++ "") ++ "") = Some m).
  { eapply re_match_complete. unfold ScienceFilePath.version_pattern.
    eapply Sem_seq; [simpl; repeat split|].
    eapply Sem_seq; [apply Sem_literal|].
    eapply Sem_seq; [apply Sem_exactly; assumption|].
    simpl. auto. }
  destruct H as [m H]. simpl in H. rewrite !append_nil_r in H.
  simpl. rewrite H. reflexivity.
Qed.

Lemma length_nonempty (s : string) n : String.length s = S n -> s <> "".
Proof. intros H ->. discriminate. Qed.

Lemma eqb_empty_false (s : string) : s <> "" -> String.eqb s "" = false.
Proof. apply String.eqb_neq. Qed.

(** A name of the convention's shape whose fields pass every check is
    accepted, and the object holds those fields. *)
Lemma science_init_accepts cfg i dl desc date rp v3 ext rv :
  token i -> token dl -> token desc ->
  plain_name i = true -> plain_name dl = true -> plain_name desc = true ->
  digits_of_length 8 date ->
  (forall r, rp = Some r -> digits_of_length 5 r) ->
  digits_of_length 3 v3 ->
  ext = (if String.eqb dl "l0" then "pkts" else "cdf") ->
  str_in i (VALID_INSTRUMENTS cfg) = true ->
  str_in dl (VALID_DATALEVELS cfg) = true ->
  str_in ext (VALID_FILE_EXTENSION cfg) = true ->
  is_valid_date (Some date) = Ok true ->
  match rp with
  | Some r => exists z, py_int (Some r) = Ok z /\ rv = PInt z
  | None => rv = PNone
  end ->
  ScienceFilePath.init cfg (science_name i dl desc date rp v3 ext "")
  = Ok (ScienceFilePath.mk
          (mkPath "" [science_name i dl desc date rp v3 ext ""])
          (DATA_DIR cfg) (Some "imap") (Some i) (Some dl) (Some desc)
          (Some date) rv (Some ("v" ++ v3)) (Some ext)).
Proof.
  intros Ti Tdl Tdesc Pi Pdl Pdesc Ddate Hrp Dv Hext Vi Vdl Vext Hdate Hrv.
  assert (Hext' : ext = "cdf" \/ ext = "pkts")
    by (subst ext; destruct (String.eqb dl "l0"); auto).
  pose proof (science_name_plain i dl desc date rp v3 ext
                Pi Pdl Pdesc Ddate Hrp Dv Hext') as Hcomp.
  destruct (science_name_matches i dl desc date rp v3 ext
              Ti Tdl Tdesc Ddate Hrp Dv Hext') as [m Hm].
  destruct (science_match_inv _ _ Hm)
    as (i' & dl' & desc' & date' & rp' & v3' & ext' & tail' & Hname
        & Ti' & Tdl' & Tdesc' & Ddate' & Hrp' & Dv' & Hext'' & _
        & Gm & Gi & Gdl & Gdesc & Gdate & Grp & Gv & Ge).
  apply science_name_inj in Hname; try assumption.
  destruct Hname as (<- & <- & <- & <- & <- & <- & <- & <-).
  unfold ScienceFilePath.init.
  rewrite (Path_of_component _ Hcomp).
  unfold ScienceFilePath.extract_filename_components.
  cbn [Path_name parts last]. rewrite Hm.
  rewrite Gm, Gi, Gdl, Gdesc, Gdate, Grp, Gv, Ge.
  assert (Hrepoint :
            (if truthy (of_group rp)
             then bind (py_int rp) (fun v => Ok (PInt v))
             else Ok (of_group rp)) = Ok rv).
  { destruct rp as [r|].
    - destruct Hrv as (z & Hz & ->). destruct (Hrp r eq_refl) as [Lr _].
      cbn [of_group truthy].
      rewrite (eqb_empty_false r (length_nonempty _ _ Lr)).
      cbn [negb]. rewrite Hz. reflexivity.
    - subst rv. reflexivity. }
  rewrite Hrepoint. cbn [bind].
  destruct Ti as [Ni _], Tdl as [Ndl _], Tdesc as [Ndesc _].
  destruct Ddate as [Ldate _].
  assert (Hvalid :
            ScienceFilePath.validate_filename cfg
              (ScienceFilePath.mk
                 (mkPath "" [science_name i dl desc date rp v3 ext ""])
                 (DATA_DIR cfg) (Some "imap") (Some i) (Some dl) (Some desc)
                 (Some date) rv (Some ("v" ++ v3)) (Some ext)) = Ok "").
  { unfold ScienceFilePath.validate_filename.
    cbn [ScienceFilePath.mission ScienceFilePath.instrument
         ScienceFilePath.data_level ScienceFilePath.descriptor
         ScienceFilePath.start_date ScienceFilePath.version
         ScienceFilePath.extension ScienceFilePath.repointing
         ScienceFilePath.opt_in ScienceFilePath.opt_eqb
         ScienceFilePath.missing existsb].
    rewrite Hdate, (version_pattern_matches _ Dv). cbn [bind].
    rewrite Vi, Vdl, Vext.
    rewrite (eqb_empty_false i Ni), (eqb_empty_false dl Ndl),
      (eqb_empty_false desc Ndesc),
      (eqb_empty_false date (length_nonempty _ _ Ldate)).
    assert (Hrvc : truthy rv && negb (isinstance_int rv) = false).
    { destruct rp; [destruct Hrv as (z & _ & ->) | subst rv]; simpl;
        [apply andb_false_r | reflexivity]. }
    rewrite Hrvc.
    assert (Hpair :
              String.eqb dl "l0" && negb (String.eqb ext "pkts")
              || negb (String.eqb dl "l0") && negb (String.eqb ext "cdf")
              = false).
    { subst ext. destruct (String.eqb dl "l0"); reflexivity. }
    rewrite Hpair.
    destruct Hext' as [-> | ->]; reflexivity. }
  cbn [ScienceFilePath.c_mission ScienceFilePath.c_instrument
       ScienceFilePath.c_data_level ScienceFilePath.c_descriptor
       ScienceFilePath.c_start_date ScienceFilePath.c_repointing
       ScienceFilePath.c_version ScienceFilePath.c_extension].
  rewrite Hvalid. reflexivity.
Qed.

(** C6, as stated, fails: a repointing number of six digits is formatted
    into a name the five-digit pattern refuses, and a descriptor with a
    path separator leaves only its last piece to be matched. *)
Lemma C6_round_trip_counterexample :
  (valid_science_fields example_config "mag" "l0" "raw" "20210101" "v001"
     (Some 100000%Z)
   /\ exists msg,
       ScienceFilePath.generate_from_inputs example_config
         "mag" "l0" "raw" "20210101" "v001" (Some 100000%Z)
       = Raise (InvalidScienceFileError msg))
  /\ (valid_science_fields example_config "mag" "l1a" "a/b" "20210101" "v001"
        None
      /\ exists msg,
          ScienceFilePath.generate_from_inputs example_config
            "mag" "l1a" "a/b" "20210101" "v001" None
          = Raise (InvalidScienceFileError msg)).
Proof.
  split; split.
  - unfold valid_science_fields, token, real_date, version_form,
      digits_of_length.
    repeat split; try reflexivity; try discriminate.
    + exists "001". repeat split; reflexivity.
    + intros r [= <-]. lia.
  - eexists. reflexivity.
  - unfold valid_science_fields, token, real_date, version_form,
      digits_of_length.
    repeat split; try reflexivity; try discriminate.
    exists "001". repeat split; reflexivity.
  - eexists. reflexivity.
Qed.

(** C6, amended.  With cdf and pkts among the valid extensions, a field
    tuple whose instrument and data level are valid and, like the
    descriptor, are non-empty and free of underscores and path separators,
    whose start time is a real eight-digit date, whose version is v and
    three digits and whose repointing number is absent or between 1 and
    99999, is turned by [generate_from_inputs] into an object holding
    exactly these fields, with extension pkts for l0 and cdf otherwise. *)
Theorem C6_generated_science_name_round_trips (cfg : Config)
        (instrument data_level descriptor start_time version : string)
        (repointing : option Z) :
  str_in "cdf" (VALID_FILE_EXTENSION cfg) = true ->
  str_in "pkts" (VALID_FILE_EXTENSION cfg) = true ->
  str_in instrument (VALID_INSTRUMENTS cfg) = true ->
  token instrument -> plain_name instrument = true ->
  str_in data_level (VALID_DATALEVELS cfg) = true ->
  token data_level -> plain_name data_level = true ->
  token descriptor -> plain_name descriptor = true ->
  real_date start_time ->
  version_form version ->
  (forall r, repointing = Some r -> (1 <= r <= 99999)%Z) ->
  exists p,
    ScienceFilePath.generate_from_inputs cfg instrument data_level descriptor
      start_time version repointing = Ok p
    /\ ScienceFilePath.mission p = Some "imap"
    /\ ScienceFilePath.instrument p = Some instrument
    /\ ScienceFilePath.data_level p = Some data_level
    /\ ScienceFilePath.descriptor p = Some descriptor
    /\ ScienceFilePath.start_date p = Some start_time
    /\ ScienceFilePath.version p = Some version
    /\ ScienceFilePath.repointing p = repointing_value repointing
    /\ ScienceFilePath.extension p
       = Some (if String.eqb data_level "l0" then "pkts" else "cdf").
Proof.
  intros Vcdf Vpkts Vi Ti Pi Vdl Tdl Pdl Tdesc Pdesc [Ddate Hdate]
         (v3 & -> & Dv) Hrp.
  set (ext := if String.eqb data_level "l0" then "pkts" else "cdf").
  set (rp := option_map format_05d repointing).
  assert (Hname :
            ScienceFilePath.generate_from_inputs cfg instrument data_level
              descriptor start_time ("v" ++ v3) repointing
            = ScienceFilePath.init cfg
                (science_name instrument data_level descriptor start_time rp
                   v3 ext "")).
  { unfold ScienceFilePath.generate_from_inputs, science_name. f_equal.
    fold ext. rewrite append_nil_r.
    destruct repointing as [r|]; simpl.
    - assert (Hr : (r =? 0)%Z = false)
        by (apply Z.eqb_neq; specialize (Hrp r eq_refl); lia).
      rewrite Hr. simpl. rewrite !append_assoc. reflexivity.
    - reflexivity. }
  rewrite Hname.
  erewrite (science_init_accepts cfg instrument data_level descriptor
              start_time rp v3 ext (repointing_value repointing));
    try assumption; try reflexivity.
  - eexists. split; [reflexivity|]. repeat split.
  - intros t Ht. unfold rp in Ht.
    destruct repointing as [r|]; [|discriminate].
    injection Ht as <-. apply format_05d_round_trip.
    specialize (Hrp r eq_refl). lia.
  - unfold ext. destruct (String.eqb data_level "l0"); assumption.
  - unfold rp. destruct repointing as [r|]; simpl; [|reflexivity].
    exists r. split; [|reflexivity].
    apply format_05d_round_trip. specialize (Hrp r eq_refl). lia.
Qed.

Lemma C6_generated_science_name_round_trips_witness :
  exists p,
    ScienceFilePath.generate_from_inputs example_config
      "mag" "l0" "raw" "20210101" "v001" (Some 1%Z) = Ok p
    /\ ScienceFilePath.mission p = Some "imap"
    /\ ScienceFilePath.instrument p = Some "mag"
    /\ ScienceFilePath.data_level p = Some "l0"
    /\ ScienceFilePath.descriptor p = Some "raw"
    /\ ScienceFilePath.start_date p = Some "20210101"
    /\ ScienceFilePath.version p = Some "v001"
    /\ ScienceFilePath.repointing p = repointing_value (Some 1%Z)
    /\ ScienceFilePath.extension p = Some "pkts".
Proof.
  apply (C6_generated_science_name_round_trips example_config
           "mag" "l0" "raw" "20210101" "v001" (Some 1%Z));
    try reflexivity.
  - split; [discriminate | reflexivity].
  - split; [discriminate | reflexivity].
  - split; [discriminate | reflexivity].
  - split; [split|]; reflexivity.
  - exists "001". split; [reflexivity|]. split; reflexivity.
  - intros r [= <-]. lia.
Defined.

(* ================================================================== *)
(** ** The dispatcher away from the version crash *)

(** X11.  Science construction fails with its own error class only. *)
Lemma science_init_error cfg file_name e :
  ScienceFilePath.init cfg file_name = Raise e ->
  exists msg, e = InvalidScienceFileError msg.
Proof.
  unfold ScienceFilePath.init, ScienceFilePath.extract_filename_components.
  destruct (re_match ScienceFilePath.pattern _) as [m|] eqn:Em.
  - destruct (science_match_inv _ _ Em)
      as (i & dl & desc & date & rp & v3 & ext & tail & _ & _ & _ & _ & _ & _
          & _ & _ & _ & Gm & Gi & Gdl & Gdesc & Gdate & Grp & Gv & Ge).
    rewrite Gm, Gi, Gdl, Gdesc, Gdate, Grp, Gv, Ge.
    destruct rp as [r|]; cbn [of_group truthy].
    + destruct (negb (String.eqb r "")).
      * destruct (py_int_some r) as [[z ->] | ->]; cbn [bind].
        -- cbn [ScienceFilePath.c_mission ScienceFilePath.c_instrument
                ScienceFilePath.c_data_level ScienceFilePath.c_descriptor
                ScienceFilePath.c_start_date ScienceFilePath.c_repointing
                ScienceFilePath.c_version ScienceFilePath.c_extension].
           match goal with
           | |- context [ScienceFilePath.validate_filename cfg ?self] =>
             destruct (science_validate_total cfg self date ("v" ++ v3)
                         eq_refl eq_refl) as [msg ->]
           end.
           cbn [bind]. destruct (negb (String.eqb msg "")); intros [= <-]; eauto.
        -- unfold int_literal_error. intros [= <-]. eauto.
      * cbn [bind ScienceFilePath.c_mission ScienceFilePath.c_instrument
             ScienceFilePath.c_data_level ScienceFilePath.c_descriptor
             ScienceFilePath.c_start_date ScienceFilePath.c_repointing
             ScienceFilePath.c_version ScienceFilePath.c_extension].
        match goal with
        | |- context [ScienceFilePath.validate_filename cfg ?self] =>
          destruct (science_validate_total cfg self date ("v" ++ v3)
                      eq_refl eq_refl) as [msg ->]
        end.
        cbn [bind]. destruct (negb (String.eqb msg "")); intros [= <-]; eauto.
    + cbn [bind ScienceFilePath.c_mission ScienceFilePath.c_instrument
           ScienceFilePath.c_data_level ScienceFilePath.c_descriptor
           ScienceFilePath.c_start_date ScienceFilePath.c_repointing
           ScienceFilePath.c_version ScienceFilePath.c_extension].
      match goal with
      | |- context [ScienceFilePath.validate_filename cfg ?self] =>
        destruct (science_validate_total cfg self date ("v" ++ v3)
                    eq_refl eq_refl) as [msg ->]
      end.
      cbn [bind]. destruct (negb (String.eqb msg "")); intros [= <-]; eauto.
  - cbn [bind]. intros [= <-]. eauto.
Qed.

Lemma ancillary_validate_total cfg self d :
  AncillaryFilePath.start_date self = Some d ->
  exists msg, AncillaryFilePath.validate_filename cfg self = Ok msg.
Proof.
  intros Hd. unfold AncillaryFilePath.validate_filename. rewrite Hd.
  destruct (is_valid_date_total d) as [b ->]. cbn [bind].
  destruct (AncillaryFilePath.end_date self) as [e|]; cbn [of_group truthy].
  - destruct (negb (String.eqb e "")); [|eauto].
    destruct (is_valid_date_total e) as [b' ->]. cbn [bind]. eauto.
  - eauto.
Qed.

(** X14.  Ancillary construction fails with its own error class only. *)
Lemma ancillary_init_error cfg file_name e :
  AncillaryFilePath.init cfg file_name = Raise e ->
  exists msg, e = InvalidAncillaryFileError msg.
Proof.
  unfold AncillaryFilePath.init, AncillaryFilePath.extract_filename_components.
  destruct (re_match AncillaryFilePath.pattern _) as [m|] eqn:Em.
  - destruct (ancillary_match_inv _ _ Em)
      as (i & desc & date & ed & v3 & ext & tail & _ & _ & _ & _ & _ & _ & _
          & _ & Gm & Gi & Gdesc & Gdate & Ged & Gv & Ge).
    unfold groupdict. rewrite (re_match_names _ _ _ Em).
    cbn [bind group_names AncillaryFilePath.pattern map app
         AncillaryFilePath.item lookup String.eqb Ascii.eqb Bool.eqb
         exactly plus lit].
    rewrite Gdate.
    match goal with
    | |- context [AncillaryFilePath.validate_filename cfg ?self] =>
      destruct (ancillary_validate_total cfg self date eq_refl) as [msg ->]
    end.
    cbn [bind]. destruct (negb (String.eqb msg "")); intros [= <-]; eauto.
  - cbn [bind]. intros [= <-]. eauto.
Qed.

(** X16.  Whenever the SPICE attempt ends in an object or in its own error, the
    dispatcher is the ordered choice SPICE, Science, Ancillary, and the
    combined error is raised exactly when all three refuse the name. *)
Lemma dispatcher_follows_order cfg file_name :
  (forall e, SPICEFilePath.init file_name = Raise e ->
             exists msg, e = InvalidSPICEFileError msg) ->
  generate_imap_file_path cfg file_name
  = match SPICEFilePath.init file_name with
    | Ok p => Ok (SPICE p)
    | Raise _ =>
      match ScienceFilePath.init cfg file_name with
      | Ok p => Ok (Science p)
      | Raise _ =>
        match AncillaryFilePath.init cfg file_name with
        | Ok p => Ok (Ancillary p)
        | Raise _ => Raise (ValueError (no_match_message file_name))
        end
      end
    end.
Proof.
  intros Hspice. unfold generate_imap_file_path.
  destruct (SPICEFilePath.init file_name) as [p|e]; [reflexivity|].
  destruct (Hspice e eq_refl) as [msg ->].
  destruct (ScienceFilePath.init cfg file_name) as [p|e] eqn:Es; [reflexivity|].
  destruct (science_init_error _ _ _ Es) as [msg' ->].
  destruct (AncillaryFilePath.init cfg file_name) as [p|e] eqn:Ea; [reflexivity|].
  destruct (ancillary_init_error _ _ _ Ea) as [msg'' ->].
  reflexivity.
Qed.

(* ================================================================== *)
(** ** Version and repointing format checks *)

Lemma re_fullmatch_sound r s m :
  re_fullmatch r s = Some m ->
  exists c', Sem s r s "" [] c' /\ m = mkMatch (group_names r) c' "".
Proof.
  unfold re_fullmatch. intros H.
  apply rmatch_sound in H as (u & s' & c' & -> & HS & Hk).
  destruct s' as [|ch s']; [|discriminate].
  injection Hk as <-. rewrite append_nil_r in *. eauto.
Qed.

Lemma re_fullmatch_complete r s c' :
  Sem s r s "" [] c' -> exists m, re_fullmatch r s = Some m.
Proof.
  intros HS. unfold re_fullmatch.
  pose proof (rmatch_complete s r s "" [] c'
                (fun s' caps =>
                   match s' with
                   | "" => Some (mkMatch (group_names r) caps s')
                   | _ => None
                   end) _ HS eq_refl) as H.
  rewrite append_nil_r in H. exact H.
Qed.

(** X6.  [is_valid_version] holds exactly for "latest" and for v followed by
    three digits; nothing may follow, not even a newline. *)
Theorem is_valid_version_exact (input_version : string) :
  holds (is_valid_version input_version) = true
  <-> input_version = "latest" \/ version_form input_version.
Proof.
  unfold is_valid_version. split.
  - destruct (String.eqb_spec input_version "latest") as [-> | _]; [auto|].
    destruct (re_fullmatch _ input_version) as [m|] eqn:E; [|discriminate].
    intros _. right.
    apply re_fullmatch_sound in E as (c' & HS & _).
    unfold exactly in HS. sem_inv HS.
    match goal with
    | H : forall h, Some ?n = Some h -> _ |- _ => specialize (H n eq_refl)
    end.
    eexists. split; [reflexivity|]. split; [lia | assumption].
  - intros [-> | (v3 & -> & Lv & Hv)]; [reflexivity|].
    destruct (String.eqb ("v" ++ v3) "latest"); [reflexivity|].
    destruct (re_fullmatch_complete (lit "v" +++ exactly 3 CDigit)%re
                ("v" ++ v3) []) as [m ->]; [|reflexivity].
    eapply Sem_seq; [apply Sem_literal | apply Sem_exactly; assumption].
Qed.

(** X7.  [is_valid_repointing] returns a match exactly for "repoint" followed
    by five digits. *)
Theorem is_valid_repointing_exact (input_repointing : string) :
  is_valid_repointing input_repointing <> None
  <-> exists r, input_repointing = "repoint" ++ r /\ digits_of_length 5 r.
Proof.
  unfold is_valid_repointing. split.
  - destruct (re_fullmatch _ input_repointing) as [m|] eqn:E; [|congruence].
    intros _. apply re_fullmatch_sound in E as (c' & HS & _).
    unfold exactly in HS. sem_inv HS.
    match goal with
    | H : forall h, Some ?n = Some h -> _ |- _ => specialize (H n eq_refl)
    end.
    eexists. split; [reflexivity|]. split; [lia | assumption].
  - intros (r & -> & Lr & Hr).
    destruct (re_fullmatch_complete (lit "repoint" +++ exactly 5 CDigit)%re
                ("repoint" ++ r) []) as [m ->]; [|discriminate].
    eapply Sem_seq; [apply Sem_literal | apply Sem_exactly; assumption].
Qed.

(* ================================================================== *)
(** ** [int] on digit runs *)

Lemma digit_not_space c : in_class CDigit c = true -> is_space c = false.
Proof.
  destruct c as [[] [] [] [] [] [] [] []]; vm_compute; intros H;
    (reflexivity || discriminate).
Qed.

Lemma digit_not_sign c :
  in_class CDigit c = true ->
  Ascii.eqb c "-" = false /\ Ascii.eqb c "+" = false.
Proof.
  destruct c as [[] [] [] [] [] [] [] []]; vm_compute; intros H;
    (split; reflexivity) || discriminate.
Qed.

Lemma lstrip_digits s : all_digits s = true -> lstrip s = s.
Proof.
  destruct s as [|c s]; [reflexivity|]. unfold all_digits. simpl.
  intros H. apply andb_true_iff in H as [Hc _].
  unfold is_digit in Hc. rewrite (digit_not_space _ Hc). reflexivity.
Qed.

Lemma rstrip_digits s : all_digits s = true -> rstrip s = s.
Proof.
  unfold all_digits. induction s as [|c s IH]; [reflexivity|]. simpl.
  intros H. apply andb_true_iff in H as [Hc Hs].
  rewrite (IH Hs). unfold is_digit in Hc. rewrite (digit_not_space _ Hc).
  destruct s; reflexivity.
Qed.

Lemma int_body_digits s :
  all_digits s = true ->
  forall b acc, s <> "" \/ b = true ->
                int_body b acc s = Some (decimal_value acc s).
Proof.
  unfold all_digits. induction s as [|c s IH]; intros H b acc Hb.
  - destruct Hb as [Hb | ->]; [congruence | reflexivity].
  - simpl in H. apply andb_true_iff in H as [Hc Hs].
    simpl. rewrite Hc. apply IH; auto.
Qed.

(** On a non-empty run of digits [int] returns the number it writes. *)
Lemma py_int_digits s :
  all_digits s = true -> s <> "" -> py_int (Some s) = Ok (decimal_value 0 s).
Proof.
  intros Hs Hne. unfold py_int.
  rewrite (lstrip_digits _ Hs), (rstrip_digits _ Hs).
  destruct s as [|c s]; [congruence|].
  assert (Hc : in_class CDigit c = true).
  { unfold all_digits in Hs. simpl in Hs.
    apply andb_true_iff in Hs as [Hc _]. exact Hc. }
  destruct (digit_not_sign _ Hc) as [-> ->].
  rewrite (int_body_digits _ Hs); auto.
Qed.

(* ================================================================== *)
(** ** Every outcome of SPICE construction *)

Lemma matches_on_group_source l s m :
  SPICEFilePath._matches_on_group l s = Some m ->
  exists r, In r l /\ re_match r s = Some m.
Proof.
  induction l as [|r l IH]; simpl; [discriminate|].
  destruct (re_match r s) as [m'|] eqn:E.
  - intros [= <-]. eauto.
  - intros H. destruct (IH H) as (r' & Hin & Hr). eauto.
Qed.

Lemma type_transform_total x : exists v, SPICEFilePath.type_transform x = Ok v.
Proof. destruct x; simpl; eauto. Qed.

Lemma transform_parts_version_ok m z keys :
  py_int (group m "version") = Ok z ->
  exists d,
    SPICEFilePath.transform_parts
      (Some [("type", SPICEFilePath.type_transform);
             ("version", SPICEFilePath.version_transform)]) m keys = Ok d
    /\ (In "version" keys -> lookup "version" d = Some (PInt z)).
Proof.
  intros Hz. induction keys as [|part keys (d & IH & Hd)].
  - exists []. split; [reflexivity | intros []].
  - cbn [SPICEFilePath.transform_parts lookup]. rewrite IH.
    destruct (String.eqb_spec part "type") as [-> | Ht].
    + destruct (type_transform_total (group m "type")) as [v ->].
      cbn [bind]. eexists. split; [reflexivity|].
      intros [Habs | Hin]; [discriminate|]. cbn [lookup].
      destruct (String.eqb_spec "version" "type"); [discriminate | auto].
    + destruct (String.eqb_spec part "version") as [-> | Hv].
      * unfold SPICEFilePath.version_transform. rewrite Hz. cbn [bind].
        eexists. split; [reflexivity|]. intros _. reflexivity.
      * cbn [bind]. eexists. split; [reflexivity|].
        intros [Habs | Hin]; [congruence|]. cbn [lookup].
        destruct (String.eqb_spec "version" part); [congruence | auto].
Qed.

Lemma transform_parts_version_raise m e keys :
  py_int (group m "version") = Raise e ->
  In "version" keys ->
  SPICEFilePath.transform_parts
    (Some [("type", SPICEFilePath.type_transform);
           ("version", SPICEFilePath.version_transform)]) m keys = Raise e.
Proof.
  intros He. induction keys as [|part keys IH]; intros Hin; [destruct Hin|].
  cbn [SPICEFilePath.transform_parts lookup].
  destruct (String.eqb_spec part "type") as [-> | Ht].
  - destruct Hin as [Habs | Hin]; [discriminate|].
    destruct (type_transform_total (group m "type")) as [v ->].
    cbn [bind]. rewrite (IH Hin). reflexivity.
  - destruct (String.eqb_spec part "version") as [-> | Hv].
    + unfold SPICEFilePath.version_transform. rewrite He. reflexivity.
    + destruct Hin as [Habs | Hin]; [congruence|].
      cbn [bind]. rewrite (IH Hin). reflexivity.
Qed.

(** Each of the seven patterns has a version group, and what it captures
    is a run of digits. *)
Lemma spice_version_group r s m :
  In r SPICEFilePath.valid_spice_regexes ->
  re_match r s = Some m ->
  In "version" (m_names m)
  /\ forall v, group m "version" = Some v -> all_digits v = true.
Proof.
  intros Hin Hm. split.
  - rewrite (re_match_names _ _ _ Hm).
    unfold SPICEFilePath.valid_spice_regexes in Hin. simpl in Hin.
    repeat (destruct Hin as [<- | Hin]; [simpl; tauto|]). contradiction.
  - intros v Hv. apply re_match_sound in Hm as (u & c' & Hs & HS & Hc).
    unfold SPICEFilePath.valid_spice_regexes in Hin. simpl in Hin.
    repeat (destruct Hin as [<- | Hin];
            [unfold SPICEFilePath.attitude_file_pattern,
               SPICEFilePath.repoint_file_pattern,
               SPICEFilePath.spacecraft_ephemeris_file_pattern,
               SPICEFilePath.spice_prod_ver_pattern,
               SPICEFilePath.spice_frame_pattern,
               SPICEFilePath.sff_filename_pattern,
               SPICEFilePath.mk_filename_pattern,
               exactly, plus, star, any in HS;
             sem_inv HS;
             rewrite Hc in Hv; unfold group in Hv; simpl in Hv;
             try discriminate; injection Hv as <-; assumption|]).
    contradiction.
Qed.

(** X1.  What [SPICEFilePath(filename)] does, for every string: no pattern
    matches and it raises [InvalidSPICEFileError]; or the first pattern
    that matches has no version ([TypeError]), an empty one ([ValueError])
    or a run of digits, and only then an object comes back, holding the
    version as the number the digits write. *)
Theorem spice_init_outcomes (file_name : string) :
  match SPICEFilePath._matches_on_group SPICEFilePath.valid_spice_regexes
          (lower (Path_name (Path_of_str file_name))) with
  | None =>
    SPICEFilePath.init file_name
    = Raise (InvalidSPICEFileError SPICEFilePath.invalid_message)
  | Some m =>
    match group m "version" with
    | None => SPICEFilePath.init file_name = Raise TypeError
    | Some v =>
      if String.eqb v "" then
        SPICEFilePath.init file_name = Raise int_literal_error
      else
        exists md,
          SPICEFilePath.init file_name
          = Ok (SPICEFilePath.mk (Path_of_str file_name) md)
          /\ lookup "version" md = Some (PInt (decimal_value 0 v))
    end
  end.
Proof.
  unfold SPICEFilePath.init, SPICEFilePath.extract_filename_components,
    SPICEFilePath._extract_parts.
  destruct (SPICEFilePath._matches_on_group _ _) as [m|] eqn:Em;
    [|reflexivity].
  destruct (matches_on_group_source _ _ _ Em) as (r & Hin & Hr).
  destruct (spice_version_group _ _ _ Hin Hr) as [Hnames Hdigits].
  destruct (group m "version") as [v|] eqn:Ev.
  - destruct (String.eqb_spec v "") as [-> | Hne].
    + rewrite (transform_parts_version_raise m int_literal_error);
        [reflexivity | rewrite Ev; reflexivity | assumption].
    + destruct (transform_parts_version_ok m (decimal_value 0 v) (m_names m))
        as (d & Hd & Hv).
      { rewrite Ev. apply py_int_digits; auto. }
      rewrite Hd. cbn [bind]. eauto.
  - rewrite (transform_parts_version_raise m TypeError);
      [reflexivity | rewrite Ev; reflexivity | assumption].
Qed.

(** X2.  An ephemeris name whose version part is "_v" with no digit makes
    [SPICEFilePath] raise the [ValueError] of [int("")], and the dispatcher
    lets it through as it does the [TypeError] of a missing version. *)
Theorem spice_empty_version_raises_value_error (cfg : Config)
        (file_name : string) (m : Match) :
  re_match SPICEFilePath.spacecraft_ephemeris_file_pattern
    (lower (Path_name (Path_of_str file_name))) = Some m ->
  group m "version" = Some "" ->
  SPICEFilePath.init file_name = Raise int_literal_error
  /\ generate_imap_file_path cfg file_name = Raise int_literal_error.
Proof.
  intros Hm Hv.
  pose proof (spice_init_outcomes file_name) as H.
  rewrite (ephemeris_is_first_match _ _ Hm), Hv in H. cbn in H.
  split; [exact H|].
  unfold generate_imap_file_path. rewrite H. reflexivity.
Qed.

Lemma spice_empty_version_raises_value_error_witness :
  SPICEFilePath.init "imap_recon_20251120_20260220_v.bsp"
  = Raise int_literal_error
  /\ generate_imap_file_path example_config "imap_recon_20251120_20260220_v.bsp"
     = Raise int_literal_error.
Proof.
  apply (spice_empty_version_raises_value_error example_config
           "imap_recon_20251120_20260220_v.bsp"
           (mkMatch ["mission"; "type"; "start_date"; "end_date"; "version";
                     "extension"]
                    [("extension", "bsp"); ("version", "");
                     ("end_date", "20260220"); ("start_date", "20251120");
                     ("type", "recon"); ("mission", "imap")]
                    "")); reflexivity.
Defined.

(* ================================================================== *)
(** ** What an accepted name guarantees *)

Lemma if_append_nil (c : bool) (a b : string) :
  b <> "" -> (if c then a ++ b else a) = "" -> c = false /\ a = "".
Proof.
  intros Hb H. destruct c; [|auto].
  apply append_eq_nil in H as [_ H]. contradiction.
Qed.

(** An empty message from [validate_filename] means every check passed. *)
Lemma science_validate_passed cfg self :
  ScienceFilePath.validate_filename cfg self = Ok "" ->
  ScienceFilePath.opt_eqb (ScienceFilePath.mission self) "imap" = true
  /\ ScienceFilePath.opt_in (ScienceFilePath.instrument self)
       (VALID_INSTRUMENTS cfg) = true
  /\ ScienceFilePath.opt_in (ScienceFilePath.data_level self)
       (VALID_DATALEVELS cfg) = true
  /\ is_valid_date (ScienceFilePath.start_date self) = Ok true
  /\ ScienceFilePath.opt_in (ScienceFilePath.extension self)
       (VALID_FILE_EXTENSION cfg) = true
  /\ (ScienceFilePath.opt_eqb (ScienceFilePath.data_level self) "l0" = true ->
      ScienceFilePath.opt_eqb (ScienceFilePath.extension self) "pkts" = true)
  /\ (ScienceFilePath.opt_eqb (ScienceFilePath.data_level self) "l0" = false ->
      ScienceFilePath.opt_eqb (ScienceFilePath.extension self) "cdf" = true).
Proof.
  unfold ScienceFilePath.validate_filename. intros H.
  destruct (is_valid_date (ScienceFilePath.start_date self)) as [b|e];
    cbn [bind] in H; [|discriminate].
  destruct (ScienceFilePath.matches ScienceFilePath.version_pattern
              (ScienceFilePath.version self)) as [b'|e];
    cbn [bind] in H; [|discriminate].
  injection H as H.
  apply if_append_nil in H as [Hext H]; [|simpl; discriminate].
  apply if_append_nil in H as [Hrp H]; [|simpl; discriminate].
  apply if_append_nil in H as [Hver H]; [|simpl; discriminate].
  apply if_append_nil in H as [Hdate H]; [|simpl; discriminate].
  apply if_append_nil in H as [Hdl H]; [|simpl; discriminate].
  apply if_append_nil in H as [Hi H]; [|simpl; discriminate].
  apply if_append_nil in H as [Hm H]; [|simpl; discriminate].
  apply negb_false_iff in Hm, Hi, Hdl, Hdate. subst b.
  apply orb_false_iff in Hext as [He1 He2].
  apply negb_false_iff in He1.
  apply orb_false_iff in He2 as [He2 He3].
  repeat split; try assumption.
  - intros Hl. rewrite Hl in He2. simpl in He2.
    now apply negb_false_iff in He2.
  - intros Hl. rewrite Hl in He3. simpl in He3.
    now apply negb_false_iff in He3.
Qed.

(** X10.  A science object only exists for a name of the convention's shape (a
    final newline apart) whose instrument, data level and extension are in
    the vocabularies, whose date is a real date and whose extension fits
    the data level; its attributes are the pieces of the name. *)
Theorem science_accepted_is_valid (cfg : Config) (file_name : string)
        (p : ScienceFilePath.t) :
  ScienceFilePath.init cfg file_name = Ok p ->
  accepted_science cfg file_name p.
Proof.
  intros H. unfold accepted_science.
  apply science_init_inv in H as (comps & He & Hv & Hp).
  unfold ScienceFilePath.extract_filename_components in He.
  destruct (re_match ScienceFilePath.pattern _) as [m|] eqn:Em; [|discriminate].
  destruct (science_match_inv _ _ Em)
    as (i & dl & desc & date & rp & v3 & ext & tail & Hname & Ti & Tdl & Tdesc
        & Ddate & Hrp & Dv & Hext & Htail
        & Gm & Gi & Gdl & Gdesc & Gdate & Grp & Gv & Ge).
  rewrite Gm, Gi, Gdl, Gdesc, Gdate, Grp, Gv, Ge in He.
  assert (Hrepoint :
            (if truthy (of_group rp)
             then bind (py_int rp) (fun v => Ok (PInt v))
             else Ok (of_group rp))
            = Ok (match rp with
                  | Some r => PInt (decimal_value 0 r)
                  | None => PNone
                  end)).
  { destruct rp as [r|]; [|reflexivity].
    destruct (Hrp r eq_refl) as [Lr Hr].
    assert (Hne : r <> "") by (intros ->; discriminate).
    cbn [of_group truthy]. apply String.eqb_neq in Hne as Hne'.
    rewrite Hne'. cbn [negb]. rewrite (py_int_digits _ Hr Hne). reflexivity. }
  rewrite Hrepoint in He. cbn [bind] in He. injection He as <-.
  cbn [ScienceFilePath.c_mission ScienceFilePath.c_instrument
       ScienceFilePath.c_data_level ScienceFilePath.c_descriptor
       ScienceFilePath.c_start_date ScienceFilePath.c_repointing
       ScienceFilePath.c_version ScienceFilePath.c_extension] in Hp.
  subst p.
  apply science_validate_passed in Hv
    as (_ & Vi & Vdl & Vdate & Vext & Hl0 & Hnl0).
  cbn [ScienceFilePath.instrument ScienceFilePath.data_level
       ScienceFilePath.start_date ScienceFilePath.extension
       ScienceFilePath.opt_in ScienceFilePath.opt_eqb] in *.
  exists i, dl, desc, date, rp, v3, ext, tail.
  do 13 (split; [first [assumption | reflexivity]|]).
  destruct (String.eqb dl "l0"); apply String.eqb_eq; auto.
Qed.



Lemma science_accepted_is_valid_witness :
  accepted_science example_config "imap_mag_l0_raw_20210101-repoint00001_v001.pkts"
    (ScienceFilePath.mk
       (mkPath "" ["imap_mag_l0_raw_20210101-repoint00001_v001.pkts"])
       (Some (mkPath "/" ["data"]))
       (Some "imap") (Some "mag") (Some "l0") (Some "raw") (Some "20210101")
       (PInt 1) (Some "v001") (Some "pkts")).
Proof.
  apply (science_accepted_is_valid example_config
           "imap_mag_l0_raw_20210101-repoint00001_v001.pkts").
  reflexivity.
Defined.


(* ================================================================== *)
(** ** Science canonical paths *)

Lemma split_on_join (cs : list string) :
  cs <> [] -> Forall component cs -> split_on "/" (join "/" cs) = cs.
Proof.
  induction cs as [|x cs IH]; [congruence|]. intros _ Hall.
  inversion Hall as [|? ? Hx Hcs]; subst.
  destruct cs as [|y cs].
  - simpl. apply split_on_plain, Hx.
  - change (join "/" (x :: y :: cs)) with (x ++ String "/" (join "/" (y :: cs))).
    rewrite split_on_append by apply Hx.
    rewrite IH; [reflexivity | discriminate | assumption].
Qed.

Lemma filter_components (cs : list string) :
  Forall component cs ->
  filter (fun x => negb (String.eqb x "") && negb (String.eqb x ".")) cs = cs.
Proof.
  induction 1 as [|x cs Hx _ IH]; [reflexivity|].
  simpl. rewrite (component_filter _ Hx), IH. reflexivity.
Qed.

(** Components joined by "/" parse back into those components. *)
Lemma Path_of_joined (cs : list string) :
  cs <> [] -> Forall component cs ->
  Path_of_str (join "/" cs) = mkPath "" cs.
Proof.
  intros Hne Hall. unfold Path_of_str.
  assert (Hs : starts_with_slash (join "/" cs) = false).
  { destruct cs as [|x cs]; [congruence|].
    inversion Hall as [|? ? (Hp & Hx & _) _]; subst.
    destruct x as [|c x]; [congruence|].
    apply plain_no_slash in Hp.
    destruct cs; simpl in *; exact Hp. }
  rewrite (splitroot_plain _ Hs), (split_on_join _ Hne Hall).
  rewrite (filter_components _ Hall). reflexivity.
Qed.

Lemma plain_name_append a b :
  plain_name (a ++ b) = plain_name a && plain_name b.
Proof. apply forall_chars_append. Qed.

(** X12.  The canonical path of an accepted science file: the data directory
    (when there is one), then mission, instrument, data level, the year
    and the month of the start date, and the file name. *)
Theorem science_canonical_path (cfg : Config) (file_name : string)
        (p : ScienceFilePath.t) :
  plain_name file_name = true ->
  str_in "." (VALID_INSTRUMENTS cfg) = false ->
  str_in "." (VALID_DATALEVELS cfg) = false ->
  ScienceFilePath.init cfg file_name = Ok p ->
  exists i dl date,
    ScienceFilePath.instrument p = Some i
    /\ ScienceFilePath.data_level p = Some dl
    /\ ScienceFilePath.start_date p = Some date
    /\ ScienceFilePath.construct_path p
       = Ok (let bucket :=
               ["imap"; i; dl; take 4 date; take 2 (drop 4 date); file_name] in
             match DATA_DIR cfg with
             | Some d => mkPath (root d) (parts d ++ bucket)
             | None => mkPath "" bucket
             end).
Proof.
  intros Hp Hidot Hdldot Hi.
  assert (Hne : file_name <> ".") by (intros ->; discriminate).
  assert (Hne' : file_name <> "") by (intros ->; discriminate).
  destruct (science_accepted_is_valid _ _ _ Hi)
    as (i & dl & desc & date & rp & v3 & ext & tail & Hname & _
        & [Ni Ui] & [Ndl Udl] & _ & [Ldate Hdate] & _ & _ & -> & Vi & Vdl & _).
  rewrite (Path_name_plain _ Hp Hne) in Hname.
  exists i, dl, date. do 3 (split; [reflexivity|]).
  assert (Hpieces : plain_name i = true /\ plain_name dl = true).
  { rewrite Hname in Hp. unfold science_name in Hp.
    rewrite !plain_name_append in Hp.
    repeat (apply andb_true_iff in Hp as [? Hp]). auto. }
  destruct Hpieces as [Pi Pdl].
  destruct date as [|d1 [|d2 [|d3 [|d4 [|d5 [|d6 [|d7 [|d8 [|d9 date]]]]]]]]];
    try discriminate.
  unfold all_digits in Hdate. simpl in Hdate.
  repeat (apply andb_true_iff in Hdate as [? Hdate]).
  assert (Hcs : Forall component
                  ["imap"; i; dl; take 4 (String d1 (String d2 (String d3
                      (String d4 (String d5 (String d6 (String d7
                      (String d8 ""))))))));
                   take 2 (drop 4 (String d1 (String d2 (String d3
                      (String d4 (String d5 (String d6 (String d7
                      (String d8 "")))))))));
                   file_name]).
  { repeat constructor; try assumption; try discriminate.
    - exact (str_in_neq _ _ _ Vi Hidot).
    - exact (str_in_neq _ _ _ Vdl Hdldot).
    - unfold plain_name. cbn [take forall_chars].
      unfold is_digit in *.
      rewrite !digit_not_slash by assumption. reflexivity.
    - unfold plain_name. cbn [take drop forall_chars].
      unfold is_digit in *.
      rewrite !digit_not_slash by assumption. reflexivity. }
  unfold ScienceFilePath.construct_path.
  cbn [ScienceFilePath.start_date ScienceFilePath.mission
       ScienceFilePath.instrument ScienceFilePath.data_level
       ScienceFilePath.filename ScienceFilePath.data_dir
       ScienceFilePath.slice bind fmt Nat.sub].
  rewrite (Path_of_component file_name) by (repeat split; assumption).
  change (Path_str (mkPath "" [file_name])) with file_name.
  pose proof (fun H => Path_of_joined _ H Hcs) as Hjoin.
  specialize (Hjoin ltac:(discriminate)).
  cbn [join] in Hjoin. cbn [drop] in Hjoin |- *.
  rewrite Hjoin. destruct (DATA_DIR cfg); reflexivity.
Qed.

Lemma science_canonical_path_witness :
  let p := ScienceFilePath.mk
             (mkPath "" ["imap_mag_l1a_burst_20210101_v001.cdf"])
             (Some (mkPath "/" ["data"]))
             (Some "imap") (Some "mag") (Some "l1a") (Some "burst")
             (Some "20210101") PNone (Some "v001") (Some "cdf") in
  exists i dl date,
    ScienceFilePath.instrument p = Some i
    /\ ScienceFilePath.data_level p = Some dl
    /\ ScienceFilePath.start_date p = Some date
    /\ ScienceFilePath.construct_path p
       = Ok (mkPath "/"
               (["data"] ++ ["imap"; i; dl; take 4 date; take 2 (drop 4 date);
                             "imap_mag_l1a_burst_20210101_v001.cdf"])).
Proof.
  intros p.
  apply (science_canonical_path example_config
           "imap_mag_l1a_burst_20210101_v001.cdf" p); reflexivity.
Defined.

(* ================================================================== *)
(** ** [is_valid_date] on eight digits is the calendar *)

Section MatcherShape.
Context {R R' : Type}.
Variable subj : string.

Lemma rep_match_map (g : R -> R') p :
  forall s lo hi (k : string -> option R) (k' : string -> option R'),
    (forall s', k' s' = option_map g (k s')) ->
    rep_match p lo hi s k' = option_map g (rep_match p lo hi s k).
Proof.
  induction s as [|ch s IH]; intros lo hi k k' Hk.
  - destruct hi as [[|h]|], lo; simpl; auto.
  - assert (Hstop :
              match lo with O => k' (String ch s) | S _ => None end
              = option_map g match lo with O => k (String ch s) | S _ => None end)
      by (destruct lo; simpl; auto).
    destruct hi as [[|h]|]; cbn [rep_match]; try exact Hstop;
      (destruct (in_class p ch); [|exact Hstop]);
      rewrite (IH _ _ k k' Hk);
      match goal with
      | |- context [rep_match p ?a ?b s k] =>
        destruct (rep_match p a b s k); [reflexivity | exact Hstop]
      end.
Qed.

(** The result of the continuation does not steer the matcher. *)
Lemma rmatch_map (g : R -> R') r :
  forall s c (k : string -> captures -> option R)
         (k' : string -> captures -> option R'),
    (forall s' c', k' s' c' = option_map g (k s' c')) ->
    rmatch subj r s c k' = option_map g (rmatch subj r s c k).
Proof.
  induction r as [| | |p|p lo hi|r1 IH1 r2 IH2|r1 IH1 r2 IH2|r1 IH1|n r1 IH1];
    intros s c k k' Hk; cbn [rmatch].
  - apply Hk.
  - destruct (Nat.eqb _ _); [apply Hk | reflexivity].
  - destruct (at_end s); [apply Hk | reflexivity].
  - destruct s as [|ch s]; [reflexivity|].
    destruct (in_class p ch); [apply Hk | reflexivity].
  - apply rep_match_map. intros s'. apply Hk.
  - apply IH1. intros s' c'. apply IH2. exact Hk.
  - rewrite (IH1 _ _ k k' Hk), (IH2 _ _ k k' Hk).
    destruct (rmatch subj r1 s c k); reflexivity.
  - rewrite (IH1 _ _ k k' Hk), Hk.
    destruct (rmatch subj r1 s c k); reflexivity.
  - apply IH1. intros s' c'. apply Hk.
Qed.
End MatcherShape.

Lemma rep_match_ext {R} p :
  forall s lo hi (k k' : string -> option R),
    (forall s', k' s' = k s') ->
    rep_match p lo hi s k' = rep_match p lo hi s k.
Proof.
  intros s lo hi k k' Hk.
  rewrite (rep_match_map (fun x => x) p s lo hi k k').
  - destruct (rep_match p lo hi s k); reflexivity.
  - intros s'. rewrite Hk. destruct (k s'); reflexivity.
Qed.

(** A pattern without [^] matches the same way whatever precedes it, and
    passes the captures made before it through. *)
Lemma rmatch_frame {R} subj subj' (c0 : captures) r :
  no_bol r = true ->
  forall s c (k k' : string -> captures -> option R),
    (forall s' c', k' s' c' = k s' (c' ++ c0)%list) ->
    rmatch subj' r s c k' = rmatch subj r s (c ++ c0)%list k.
Proof.
  induction r as [| | |p|p lo hi|r1 IH1 r2 IH2|r1 IH1 r2 IH2|r1 IH1|n r1 IH1];
    intros Hb s c k k' Hk; cbn [rmatch]; cbn [no_bol] in Hb.
  - apply Hk.
  - discriminate.
  - destruct (at_end s); [apply Hk | reflexivity].
  - destruct s as [|ch s]; [reflexivity|].
    destruct (in_class p ch); [apply Hk | reflexivity].
  - apply rep_match_ext. intros s'. apply Hk.
  - apply andb_true_iff in Hb as [H1 H2].
    apply (IH1 H1). intros s' c'. apply (IH2 H2). exact Hk.
  - apply andb_true_iff in Hb as [H1 H2].
    rewrite (IH1 H1 _ _ k k' Hk), (IH2 H2 _ _ k k' Hk). reflexivity.
  - rewrite (IH1 Hb _ _ k k' Hk), Hk. reflexivity.
  - apply (IH1 Hb). intros s' c'. apply Hk.
Qed.

Lemma lookup_app {A} k (a b : list (string * A)) :
  lookup k (a ++ b)%list
  = match lookup k a with
    | Some v => Some v
    | None => lookup k b
    end.
Proof.
  induction a as [|[n v] a IH]; simpl; [reflexivity|].
  destruct (String.eqb k n); [reflexivity | exact IH].
Qed.

Lemma opt_string_eqb_eq x y : opt_string_eqb x y = true -> x = y.
Proof.
  destruct x, y; simpl; try discriminate; auto.
  intros H. apply String.eqb_eq in H. congruence.
Qed.

Lemma md_check_all :
  forallb (fun a => forallb (fun b => forallb (fun c => forallb (fun d =>
    md_check a b c d) digit_chars) digit_chars) digit_chars) digit_chars
  = true.
Proof. vm_compute. reflexivity. Qed.

Lemma In_digit_chars c : in_class CDigit c = true -> In c digit_chars.
Proof.
  destruct c as [[] [] [] [] [] [] [] []]; vm_compute; intros H;
    try discriminate; tauto.
Qed.

Lemma md_check_digits a b c d :
  in_class CDigit a = true -> in_class CDigit b = true ->
  in_class CDigit c = true -> in_class CDigit d = true ->
  md_check a b c d = true.
Proof.
  intros Ha Hb Hc Hd. pose proof md_check_all as H.
  rewrite forallb_forall in H. specialize (H a (In_digit_chars a Ha)).
  rewrite forallb_forall in H. specialize (H b (In_digit_chars b Hb)).
  rewrite forallb_forall in H. specialize (H c (In_digit_chars c Hc)).
  rewrite forallb_forall in H. exact (H d (In_digit_chars d Hd)).
Qed.

Lemma date_ok_ranges y m d :
  date_ok y m d = true -> (1 <= m <= 12 /\ 1 <= d <= 31)%Z.
Proof.
  unfold date_ok, days_in_month. intros H.
  repeat (apply andb_true_iff in H as [H ?]).
  destruct (m =? 2)%Z; [destruct (is_leap y)|];
    [| |destruct ((m =? 4) || (m =? 6) || (m =? 9) || (m =? 11))%Z]; lia.
Qed.

Lemma strptime_match_digits y1 y2 y3 y4 (rest : string) :
  in_class CDigit y1 = true -> in_class CDigit y2 = true ->
  in_class CDigit y3 = true -> in_class CDigit y4 = true ->
  re_match strptime_Ymd_pattern
    (String y1 (String y2 (String y3 (String y4 rest))))
  = option_map
      (fun x : captures * string =>
         mkMatch (group_names strptime_Ymd_pattern)
                 (fst x ++ [("Y", String y1 (String y2 (String y3 (String y4 ""))))])%list
                 (snd x))
      (rmatch "" strptime_md_pattern rest [] (fun s' c' => Some (c', s'))).
Proof.
  intros H1 H2 H3 H4. unfold re_match.
  set (names := group_names strptime_Ymd_pattern).
  change strptime_Ymd_pattern
    with (Seq (Grp "Y" (Cls CDigit +++ Cls CDigit +++ Cls CDigit +++ Cls CDigit))
              strptime_md_pattern)%re.
  cbn [rmatch]. rewrite H1, H2, H3, H4.
  change (String y1 (String y2 (String y3 (String y4 rest))))
    with (String y1 (String y2 (String y3 (String y4 ""))) ++ rest) at 2 3.
  rewrite take_append.
  erewrite <- (rmatch_map "" (fun x : captures * string => mkMatch names
                  (fst x ++ [("Y", String y1 (String y2 (String y3 (String y4 ""))))])%list
                  (snd x))).
  - symmetry. apply (rmatch_frame _ "" [("Y", String y1 (String y2 (String y3 (String y4 ""))))]).
    + reflexivity.
    + intros s' c'. reflexivity.
  - intros s' c'. reflexivity.
Qed.

(** X8.  On a string of eight digits [is_valid_date] answers whether the first
    four, next two and last two digits are a year from 1 to 9999, a month
    and a day of that month: it is the Gregorian calendar, leap years
    included. *)
Theorem is_valid_date_is_calendar (s : string) :
  digits_of_length 8 s ->
  is_valid_date (Some s)
  = Ok (date_ok (decimal_value 0 (take 4 s))
                (decimal_value 0 (take 2 (drop 4 s)))
                (decimal_value 0 (drop 6 s))).
Proof.
  intros [Ls Hs].
  destruct s as [|y1 [|y2 [|y3 [|y4 [|a [|b [|c [|d [|e s]]]]]]]]];
    try discriminate.
  unfold all_digits, is_digit in Hs. cbn [forall_chars] in Hs.
  repeat (apply andb_true_iff in Hs as [? Hs]).
  cbn [take drop].
  unfold is_valid_date, strptime_Ymd.
  rewrite strptime_match_digits by assumption.
  pose proof (md_check_digits a b c d) as Hmd.
  unfold md_check in Hmd.
  assert (Hfalse :
            forall y, ((decimal_value 0 (String a (String b "")) <? 1)
                       || (12 <? decimal_value 0 (String a (String b "")))
                       || (decimal_value 0 (String c (String d "")) <? 1)
                       || (31 <? decimal_value 0 (String c (String d ""))))%Z
                      = true ->
                      date_ok y (decimal_value 0 (String a (String b "")))
                              (decimal_value 0 (String c (String d ""))) = false).
  { intros y Hr. destruct (date_ok y _ _) eqn:E; [|reflexivity].
    apply date_ok_ranges in E.
    repeat (apply orb_true_iff in Hr as [Hr | Hr]); lia. }
  destruct (rmatch "" strptime_md_pattern
              (String a (String b (String c (String d "")))) []
              (fun s' c' => Some (c', s'))) as [[caps rest]|];
    cbn [option_map].
  - destruct rest as [|ch rest].
    + specialize (Hmd ltac:(assumption) ltac:(assumption)
                      ltac:(assumption) ltac:(assumption)).
      apply andb_true_iff in Hmd as [Hmd Gd].
      apply andb_true_iff in Hmd as [Gy Gm].
      apply opt_string_eqb_eq in Gy, Gm, Gd.
      unfold match_all, group. cbn [m_rest m_caps fst snd negb].
      rewrite !lookup_app, Gy, Gm, Gd. cbn [lookup String.eqb Ascii.eqb Bool.eqb].
      rewrite !py_int_digits;
        try discriminate;
        try (unfold all_digits, is_digit; cbn [forall_chars];
             repeat match goal with
                    | Hd : in_class CDigit ?x = true
                      |- context [in_class CDigit ?x] => rewrite Hd
                    end;
             reflexivity).
      cbn [bind]. destruct (date_ok _ _ _); reflexivity.
    + unfold match_all. cbn [m_rest snd negb].
      rewrite Hfalse; [reflexivity | auto].
  - rewrite Hfalse; [reflexivity | auto].
Qed.

Lemma is_valid_date_is_calendar_witness :
  is_valid_date (Some "20240229")
  = Ok (date_ok (decimal_value 0 (take 4 "20240229"))
                (decimal_value 0 (take 2 (drop 4 "20240229")))
                (decimal_value 0 (drop 6 "20240229"))).
Proof.
  apply (is_valid_date_is_calendar "20240229"). split; reflexivity.
Defined.

(** X9.  A value [is_valid_date] accepts need not have eight characters, but it
    has between six and eight. *)
Theorem is_valid_date_length (s : string) :
  is_valid_date (Some s) = Ok true ->
  6 <= String.length s <= 8.
Proof.
  unfold is_valid_date, strptime_Ymd.
  destruct (re_match strptime_Ymd_pattern s) as [m|] eqn:E; [|discriminate].
  destruct (match_all m) eqn:Hall; [|discriminate]. intros _.
  unfold match_all in Hall.
  apply re_match_sound in E as (u & c' & Hs & HS & Hm).
  destruct (m_rest m); [|discriminate].
  unfold strptime_Ymd_pattern in HS. sem_inv HS.
  all: rewrite !append_length; simpl; lia.
Qed.

Lemma is_valid_date_length_witness : 6 <= String.length "2021111" <= 8.
Proof. apply (is_valid_date_length "2021111"). reflexivity. Defined.

(* ================================================================== *)
(** ** Generated ancillary names *)

Lemma ancillary_name_inj i desc date ed v3 ext tail
      i' desc' date' ed' v3' ext' tail' :
  ancillary_name i desc date ed v3 ext tail
  = ancillary_name i' desc' date' ed' v3' ext' tail' ->
  token i -> token desc -> token i' -> token desc' ->
  digits_of_length 8 date -> digits_of_length 8 date' ->
  (forall e, ed = Some e -> digits_of_length 8 e) ->
  (forall e, ed' = Some e -> digits_of_length 8 e) ->
  digits_of_length 3 v3 -> digits_of_length 3 v3' ->
  (ext = "cdf" \/ ext = "csv" \/ ext = "json") ->
  (ext' = "cdf" \/ ext' = "csv" \/ ext' = "json") ->
  i = i' /\ desc = desc' /\ date = date' /\ ed = ed'
  /\ v3 = v3' /\ ext = ext' /\ tail = tail'.
Proof.
  unfold ancillary_name.
  intros H [_ Hi] [_ Hdesc] [_ Hi'] [_ Hdesc']
         [Ldate _] [Ldate' _] Hed Hed' [Lv _] [Lv' _] Hext Hext'.
  simpl in H. injection H as H.
  apply append_sep_inj in H as [<- H]; [|assumption..].
  apply append_sep_inj in H as [<- H]; [|assumption..].
  apply append_inv_length in H as [<- H]; [|congruence].
  assert (Hrest :
            ed = ed' /\ "_v" ++ v3 ++ "." ++ ext ++ tail
                       = "_v" ++ v3' ++ "." ++ ext' ++ tail').
  { destruct ed as [e|], ed' as [e'|]; simpl in H.
    - injection H as H.
      destruct (Hed e eq_refl) as [Le _]. destruct (Hed' e' eq_refl) as [Le' _].
      apply append_inv_length in H as [<- H]; [auto | congruence].
    - exfalso. injection H as H. destruct (Hed e eq_refl) as [Le He].
      destruct e as [|e1 e]; [discriminate|].
      simpl in H. injection H as -> _. discriminate.
    - exfalso. injection H as H. destruct (Hed' e' eq_refl) as [Le He].
      destruct e' as [|e1 e']; [discriminate|].
      simpl in H. injection H as <- _. discriminate.
    - auto. }
  destruct Hrest as [<- H']. simpl in H'. injection H' as H'.
  apply append_inv_length in H' as [<- H']; [|congruence].
  simpl in H'. injection H' as H'.
  destruct Hext as [-> | [-> | ->]], Hext' as [-> | [-> | ->]]; simpl in H';
    try discriminate; injection H' as <-; repeat split.
Qed.

Lemma ancillary_name_component i desc date ed v3 ext :
  plain_name i = true -> plain_name desc = true ->
  digits_of_length 8 date ->
  (forall e, ed = Some e -> digits_of_length 8 e) ->
  digits_of_length 3 v3 ->
  (ext = "cdf" \/ ext = "csv" \/ ext = "json") ->
  component (ancillary_name i desc date ed v3 ext "").
Proof.
  intros Hi Hdesc [_ Hdate] Hed [_ Hv] Hext.
  repeat split; try (unfold ancillary_name; simpl; discriminate).
  assert (He : plain_name (end_text ed) = true).
  { destruct ed as [e|]; [|reflexivity].
    apply (digits_plain e). apply (Hed e eq_refl). }
  pose proof (digits_plain _ Hdate) as Pdate.
  pose proof (digits_plain _ Hv) as Pv.
  unfold ancillary_name. rewrite !plain_name_append.
  rewrite Hi, Hdesc, He, Pdate, Pv.
  destruct Hext as [-> | [-> | ->]]; reflexivity.
Qed.

Lemma ancillary_name_matches i desc date ed v3 ext :
  token i -> token desc ->
  digits_of_length 8 date ->
  (forall e, ed = Some e -> digits_of_length 8 e) ->
  digits_of_length 3 v3 ->
  (ext = "cdf" \/ ext = "csv" \/ ext = "json") ->
  exists m,
    re_match AncillaryFilePath.pattern (ancillary_name i desc date ed v3 ext "")
    = Some m.
Proof.
  intros [Ni Hi] [Ndesc Hdesc] [Ldate Hdate] Hed [Lv Hv] Hext.
  assert (Hed' : forall e, ed = Some e -> String.length e = 8 /\ all_digits e = true)
    by exact Hed.
  clear Hed. destruct ed as [e|]; [destruct (Hed' e eq_refl) as [Le He]|];
    clear Hed'; destruct Hext as [-> | [-> | ->]].
  all: match goal with
       | |- context [ancillary_name ?a ?b ?c ?d ?f ?g ""] =>
         set (name := ancillary_name a b c d f g "")
       end.
  all: match goal with
       | name := ancillary_name _ _ _ ?ed _ ?ext "" |- _ =>
         assert (Hshape :
                   name = ("" ++ "imap" ++ "_" ++ i ++ "_" ++ desc
                           ++ "_" ++ date ++ end_text ed ++ "_"
                           ++ ("v" ++ v3) ++ "." ++ ext ++ "") ++ "")
           by (unfold name, ancillary_name; rewrite !append_nil_r; reflexivity)
       end.
  all: rewrite Hshape; eapply re_match_complete;
    unfold AncillaryFilePath.pattern.
  all: eapply Sem_seq; [simpl; repeat split|].
  all: eapply Sem_seq; [apply Sem_grp, Sem_literal|].
  all: eapply Sem_seq; [apply Sem_literal|].
  all: eapply Sem_seq; [apply Sem_grp, Sem_plus; assumption|].
  all: eapply Sem_seq; [apply Sem_literal|].
  all: eapply Sem_seq; [apply Sem_grp, Sem_plus; assumption|].
  all: eapply Sem_seq; [apply Sem_literal|].
  all: eapply Sem_seq; [apply Sem_grp, Sem_exactly; assumption|].
  1, 2, 3: change (end_text (Some e)) with ("_" ++ e).
  1, 2, 3: eapply Sem_seq;
    [apply Sem_opt_some; eapply Sem_seq;
     [apply Sem_literal | apply Sem_grp, Sem_exactly; assumption]|].
  4, 5, 6: eapply Sem_seq; [apply Sem_opt_none|].
  all: eapply Sem_seq; [apply Sem_literal|].
  all: eapply Sem_seq;
    [apply Sem_grp; eapply Sem_seq;
     [apply Sem_literal | apply Sem_exactly; assumption]|].
  all: eapply Sem_seq; [apply Sem_literal|].
  all: eapply Sem_seq;
    [apply Sem_grp;
     first [apply Sem_alt_l, Sem_alt_l, Sem_literal
           | apply Sem_alt_l, Sem_alt_r, Sem_literal
           | apply Sem_alt_r, Sem_literal]|].
  all: simpl; auto.
Qed.

Lemma ancillary_init_accepts cfg i desc date ed v3 ext :
  token i -> token desc ->
  plain_name i = true -> plain_name desc = true ->
  digits_of_length 8 date ->
  (forall e, ed = Some e -> digits_of_length 8 e) ->
  digits_of_length 3 v3 ->
  (ext = "cdf" \/ ext = "csv" \/ ext = "json") ->
  str_in i (VALID_INSTRUMENTS cfg) = true ->
  str_in ext (VALID_ANCILLARY_FILE_EXTENSION cfg) = true ->
  is_valid_date (Some date) = Ok true ->
  (forall e, ed = Some e -> is_valid_date (Some e) = Ok true) ->
  AncillaryFilePath.init cfg (ancillary_name i desc date ed v3 ext "")
  = Ok (AncillaryFilePath.mk
          (mkPath "" [ancillary_name i desc date ed v3 ext ""])
          (DATA_DIR cfg) (Some "imap") (Some i) (Some desc) (Some date) ed
          (Some ("v" ++ v3)) (Some ext)).
Proof.
  intros Ti Tdesc Pi Pdesc Ddate Hed Dv Hext Vi Vext Hdate Hedate.
  pose proof (ancillary_name_component i desc date ed v3 ext
                Pi Pdesc Ddate Hed Dv Hext) as Hcomp.
  destruct (ancillary_name_matches i desc date ed v3 ext
              Ti Tdesc Ddate Hed Dv Hext) as [m Hm].
  destruct (ancillary_match_inv _ _ Hm)
    as (i' & desc' & date' & ed' & v3' & ext' & tail' & Hname
        & Ti' & Tdesc' & Ddate' & Hed' & Dv' & Hext' & _
        & Gm & Gi & Gdesc & Gdate & Ged & Gv & Ge).
  apply ancillary_name_inj in Hname; try assumption.
  destruct Hname as (<- & <- & <- & <- & <- & <- & <-).
  unfold AncillaryFilePath.init.
  rewrite (Path_of_component _ Hcomp).
  unfold AncillaryFilePath.extract_filename_components.
  cbn [Path_name parts last]. rewrite Hm.
  unfold groupdict. rewrite (re_match_names _ _ _ Hm).
  cbn [bind group_names AncillaryFilePath.pattern map app
       AncillaryFilePath.item lookup String.eqb Ascii.eqb Bool.eqb
       exactly plus lit].
  rewrite Gm, Gi, Gdesc, Gdate, Ged, Gv, Ge.
  destruct Ti as [Ni _], Tdesc as [Ndesc _].
  assert (Hvalid :
            AncillaryFilePath.validate_filename cfg
              (AncillaryFilePath.mk
                 (mkPath "" [ancillary_name i desc date ed v3 ext ""])
                 (DATA_DIR cfg) (Some "imap") (Some i) (Some desc) (Some date)
                 ed (Some ("v" ++ v3)) (Some ext)) = Ok "").
  { unfold AncillaryFilePath.validate_filename.
    cbn [AncillaryFilePath.mission AncillaryFilePath.instrument
         AncillaryFilePath.descriptor AncillaryFilePath.start_date
         AncillaryFilePath.end_date AncillaryFilePath.version
         AncillaryFilePath.extension ScienceFilePath.opt_in
         ScienceFilePath.opt_eqb ScienceFilePath.missing existsb].
    rewrite Hdate. cbn [bind]. rewrite Vi, Vext.
    rewrite (eqb_empty_false i Ni), (eqb_empty_false desc Ndesc).
    assert (Hext0 : String.eqb ext "" = false)
      by (destruct Hext as [-> | [-> | ->]]; reflexivity).
    rewrite Hext0.
    destruct ed as [e|]; cbn [of_group truthy].
    - destruct (Hed e eq_refl) as [Le _].
      rewrite (eqb_empty_false e (length_nonempty _ _ Le)).
      cbn [negb]. rewrite (Hedate e eq_refl). reflexivity.
    - reflexivity. }
  rewrite Hvalid. reflexivity.
Qed.

(** X15.  [AncillaryFilePath.generate_from_inputs] on valid fields (a valid
    instrument and a descriptor that are non-empty and free of underscores
    and path separators, a version v and three digits, a valid extension
    among cdf, csv and json, a real eight-digit start date, and an end date
    that is absent or a real eight-digit date) returns an object that
    holds exactly these fields. *)
Theorem ancillary_generated_name_round_trips (cfg : Config)
        (instrument descriptor version extension start_time : string)
        (end_time : option string) :
  str_in instrument (VALID_INSTRUMENTS cfg) = true ->
  token instrument -> plain_name instrument = true ->
  token descriptor -> plain_name descriptor = true ->
  version_form version ->
  (extension = "cdf" \/ extension = "csv" \/ extension = "json") ->
  str_in extension (VALID_ANCILLARY_FILE_EXTENSION cfg) = true ->
  real_date start_time ->
  (forall e, end_time = Some e -> real_date e) ->
  exists p,
    AncillaryFilePath.generate_from_inputs cfg instrument descriptor version
      extension start_time end_time = Ok p
    /\ AncillaryFilePath.mission p = Some "imap"
    /\ AncillaryFilePath.instrument p = Some instrument
    /\ AncillaryFilePath.descriptor p = Some descriptor
    /\ AncillaryFilePath.start_date p = Some start_time
    /\ AncillaryFilePath.end_date p = end_time
    /\ AncillaryFilePath.version p = Some version
    /\ AncillaryFilePath.extension p = Some extension.
Proof.
  intros Vi Ti Pi Tdesc Pdesc (v3 & -> & Dv) Hext Vext [Ddate Hdate] Hend.
  assert (Hname :
            AncillaryFilePath.generate_from_inputs cfg instrument descriptor
              ("v" ++ v3) extension start_time end_time
            = AncillaryFilePath.init cfg
                (ancillary_name instrument descriptor start_time end_time
                   v3 extension "")).
  { unfold AncillaryFilePath.generate_from_inputs, ancillary_name. f_equal.
    rewrite append_nil_r.
    destruct end_time as [e|]; cbn [of_group truthy fmt end_text].
    - destruct (Hend e eq_refl) as [[Le _] _].
      rewrite (eqb_empty_false e (length_nonempty _ _ Le)). cbn [negb].
      simpl. rewrite ?append_assoc. reflexivity.
    - reflexivity. }
  rewrite Hname.
  erewrite ancillary_init_accepts; try assumption.
  - eexists. split; [reflexivity|]. repeat split.
  - intros e He. apply (Hend e He).
  - intros e He. apply (Hend e He).
Qed.

Lemma ancillary_generated_name_round_trips_witness :
  exists p,
    AncillaryFilePath.generate_from_inputs example_config
      "mag" "test" "v001" "csv" "20210101" (Some "20210102") = Ok p
    /\ AncillaryFilePath.mission p = Some "imap"
    /\ AncillaryFilePath.instrument p = Some "mag"
    /\ AncillaryFilePath.descriptor p = Some "test"
    /\ AncillaryFilePath.start_date p = Some "20210101"
    /\ AncillaryFilePath.end_date p = Some "20210102"
    /\ AncillaryFilePath.version p = Some "v001"
    /\ AncillaryFilePath.extension p = Some "csv".
Proof.
  apply (ancillary_generated_name_round_trips example_config
           "mag" "test" "v001" "csv" "20210101" (Some "20210102"));
    try reflexivity.
  - split; [discriminate | reflexivity].
  - split; [discriminate | reflexivity].
  - exists "001". split; [reflexivity|]. split; reflexivity.
  - right. left. reflexivity.
  - split; [split|]; reflexivity.
  - intros e [= <-]. split; [split|]; reflexivity.
Defined.

(* ================================================================== *)
(** ** SPICE names are read without regard to case *)

Lemma lower_char_idem c : lower_char (lower_char c) = lower_char c.
Proof. destruct c as [[] [] [] [] [] [] [] []]; reflexivity. Qed.

Lemma lower_char_slash c : Ascii.eqb (lower_char c) "/" = Ascii.eqb c "/".
Proof. destruct c as [[] [] [] [] [] [] [] []]; reflexivity. Qed.

Lemma lower_char_dot c : Ascii.eqb (lower_char c) "." = Ascii.eqb c ".".
Proof. destruct c as [[] [] [] [] [] [] [] []]; reflexivity. Qed.

Lemma lower_idem s : lower (lower s) = lower s.
Proof.
  induction s as [|c s IH]; [reflexivity|]. simpl.
  rewrite lower_char_idem, IH. reflexivity.
Qed.

Lemma split_on_nonempty sep s : split_on sep s <> [].
Proof.
  destruct s as [|c s]; simpl; [discriminate|].
  destruct (Ascii.eqb c sep); [discriminate|].
  destruct (split_on sep s); discriminate.
Qed.

Lemma split_on_lower s :
  split_on "/" (lower s) = map lower (split_on "/" s).
Proof.
  induction s as [|c s IH]; [reflexivity|].
  cbn [lower split_on]. rewrite lower_char_slash, IH.
  destruct (Ascii.eqb c "/"); [reflexivity|].
  pose proof (split_on_nonempty "/" s) as Hne.
  destruct (split_on "/" s); [congruence | reflexivity].
Qed.

Lemma lower_eqb_empty x : String.eqb (lower x) "" = String.eqb x "".
Proof. destruct x; reflexivity. Qed.

Lemma lower_eqb_dot x : String.eqb (lower x) "." = String.eqb x ".".
Proof.
  destruct x as [|c [|d x]]; try reflexivity;
    cbn [lower String.eqb]; rewrite lower_char_dot; reflexivity.
Qed.

Lemma filter_lower (l : list string) :
  filter (fun x => negb (String.eqb x "") && negb (String.eqb x "."))
         (map lower l)
  = map lower
        (filter (fun x => negb (String.eqb x "") && negb (String.eqb x ".")) l).
Proof.
  induction l as [|x l IH]; [reflexivity|]. cbn [map filter].
  rewrite lower_eqb_empty, lower_eqb_dot, IH.
  destruct (negb (String.eqb x "") && negb (String.eqb x ".")); reflexivity.
Qed.

Lemma drop_lower n s : drop n (lower s) = lower (drop n s).
Proof.
  revert s. induction n as [|n IH]; intros [|c s]; try reflexivity.
  cbn [lower drop]. apply IH.
Qed.

Lemma starts_with_slash_lower s :
  starts_with_slash (lower s) = starts_with_slash s.
Proof. destruct s as [|c s]; [reflexivity|]. apply lower_char_slash. Qed.

Lemma last_map_lower (l : list string) :
  last (map lower l) "" = lower (last l "").
Proof.
  induction l as [|x [|y l] IH]; try reflexivity. exact IH.
Qed.

Lemma Path_name_lower s :
  Path_name (Path_of_str (lower s)) = lower (Path_name (Path_of_str s)).
Proof.
  unfold Path_name, Path_of_str, splitroot.
  rewrite !drop_lower, !starts_with_slash_lower.
  destruct (negb (starts_with_slash s)).
  - cbn [parts]. rewrite split_on_lower, filter_lower. apply last_map_lower.
  - destruct (negb (starts_with_slash (drop 1 s))
              || starts_with_slash (drop 2 s));
      cbn [parts]; rewrite split_on_lower, filter_lower; apply last_map_lower.
Qed.

(** X4.  The SPICE conventions ignore case: a name and its lower-case form are
    parsed into the same metadata, or fail the same way. *)
Theorem spice_components_ignore_case (file_name : string) :
  SPICEFilePath.extract_filename_components (lower file_name)
  = SPICEFilePath.extract_filename_components file_name.
Proof.
  unfold SPICEFilePath.extract_filename_components, SPICEFilePath._extract_parts.
  rewrite Path_name_lower, lower_idem. reflexivity.
Qed.

(* ================================================================== *)
(** ** Only the last path component is parsed *)







(* ================================================================== *)
(** ** Instances *)

Lemma science_init_error_witness :
  exists msg,
    InvalidScienceFileError
      ("Filename naif0012.tls does not match expected pattern: "
       ++ FILENAME_CONVENTION example_config)
    = InvalidScienceFileError msg.
Proof.
  apply (science_init_error example_config "naif0012.tls"). reflexivity.
Defined.

Lemma ancillary_init_error_witness :
  exists msg,
    InvalidAncillaryFileError
      ("Filename naif0012.tls does not match expected pattern: "
       ++ ANCILLARY_FILENAME_CONVENTION example_config)
    = InvalidAncillaryFileError msg.
Proof.
  apply (ancillary_init_error example_config "naif0012.tls"). reflexivity.
Defined.

Lemma dispatcher_follows_order_witness :
  generate_imap_file_path example_config "imap_mag_test_20210101_v001.json"
  = match SPICEFilePath.init "imap_mag_test_20210101_v001.json" with
    | Ok p => Ok (SPICE p)
    | Raise _ =>
      match ScienceFilePath.init example_config
              "imap_mag_test_20210101_v001.json" with
      | Ok p => Ok (Science p)
      | Raise _ =>
        match AncillaryFilePath.init example_config
                "imap_mag_test_20210101_v001.json" with
        | Ok p => Ok (Ancillary p)
        | Raise _ =>
          Raise (ValueError (no_match_message "imap_mag_test_20210101_v001.json"))
        end
      end
    end.
Proof.
  apply (dispatcher_follows_order example_config
           "imap_mag_test_20210101_v001.json").
  intros e H. injection H as <-. eexists. reflexivity.
Defined.


Lemma is_valid_version_exact_witness :
  holds (is_valid_version "v001") = true.
Proof.
  apply (proj2 (is_valid_version_exact "v001")).
  right. exists "001". split; [reflexivity|]. split; reflexivity.
Defined.

Lemma is_valid_repointing_exact_witness :
  is_valid_repointing "repoint00001" <> None.
Proof.
  apply (proj2 (is_valid_repointing_exact "repoint00001")).
  exists "00001". split; [reflexivity|]. split; reflexivity.
Defined.
